(** * authService: entitlement state machine and webhook reconciliation

    A shallow embedding of [src/main.py]: the [users] table, the seven
    request handlers, and the properties of the entitlement logic.

    The handlers are pure functions [World -> request data -> DB ->
    Response * DB].  Everything the Python code obtains from outside the
    process (the Stripe SDK, the random token, the clocks, the
    configuration read from the environment) is a field of [World];
    the handlers never look anywhere else. *)

From Stdlib Require Import ZArith QArith Qround.
From stdpp Require Import base strings list gmap.

Local Open Scope Z_scope.
Local Open Scope string_scope.

(** ** Data model *)

(** One row of [users] (main.py, lines 29-40).  [stripe_subscription_id]
    is the only column the code ever leaves or sets to NULL; [plan] is a
    TEXT column and is kept as a string. *)
Record User := mkUser {
  email : string;
  api_key : string;
  stripe_customer_id : string;
  stripe_subscription_id : option string;
  plan : string;
  expires_at : Z;
  max_workers : Z;
  created_at : Z
}.

#[global] Instance User_eq_dec : EqDecision User.
Proof. solve_decision. Defined.

(** The table, in insertion order. *)
Abbreviation DB := (list User).

(** [init_db]: CREATE TABLE IF NOT EXISTS on a fresh database file. *)
Definition init_db : DB := [].

(** Values that [jsonify] is given in this program. *)
Inductive jval :=
| JNull
| JBool (b : bool)
| JInt (n : Z)
| JStr (s : string).

#[global] Instance jval_eq_dec : EqDecision jval.
Proof. solve_decision. Defined.

(** Python exceptions that leave a handler uncaught. *)
Inductive PyExc :=
| TypeError (msg : string).

(** What a view function produces: [jsonify(body), status], or an
    exception that escapes the handler. *)
Inductive Response :=
| Reply (status : Z) (body : gmap string jval)
| Unhandled (exc : PyExc).

(** Flask answers an uncaught exception with its generic
    500 Internal Server Error page. *)
Definition http_status (r : Response) : Z :=
  match r with
  | Reply s _ => s
  | Unhandled _ => 500
  end.

(** The JSON body the client receives, if the handler produced one. *)
Definition json_body (r : Response) : option (gmap string jval) :=
  match r with
  | Reply _ b => Some b
  | Unhandled _ => None
  end.

(** ** The outside world *)

Inductive StripeResult (A : Type) :=
| StripeOk (a : A)
| StripeError (msg : string).
Arguments StripeOk {A} a.
Arguments StripeError {A} msg.

(** [event['data']['object']]: the fields the webhook reads from a
    checkout session or a subscription. *)
Record StripeObject := mkObject {
  obj_id : string;
  obj_status : string;
  obj_subscription : option string;
  obj_metadata : gmap string string
}.

Record Event := mkEvent {
  ev_type : string;
  ev_object : StripeObject
}.

(** Outcome of [stripe.Webhook.construct_event]. *)
Inductive ConstructResult :=
| Constructed (ev : Event)
| ValueError
| SignatureVerificationError.

Record World := mkWorld {
  STRIPE_WEBHOOK_SECRET : string;
  STRIPE_PRICE_ID : string;
  (** [secrets.token_urlsafe(32)] *)
  token_urlsafe : string;
  (** [datetime.now().timestamp()], the exact value of the float *)
  now_timestamp : Q;
  (** [(datetime.now() + timedelta(days=7)).timestamp()] *)
  trial_end_timestamp : Q;
  (** [strftime('%s', 'now')], the column default of [created_at] *)
  sqlite_now : Z;
  (** [stripe.Customer.create(email=, metadata={'api_key': })], giving [customer.id] *)
  Customer_create : string -> string -> StripeResult string;
  (** [stripe.Subscription.retrieve(sub_id)], giving [subscription.status] *)
  Subscription_retrieve : string -> StripeResult string;
  (** [stripe.Subscription.modify(sub_id, cancel_at_period_end=True)] *)
  Subscription_modify : string -> StripeResult unit;
  (** [stripe.checkout.Session.create(customer=, customer_email=, price, metadata api_key)],
      giving [session.url] *)
  Session_create : string -> option string -> string -> string -> StripeResult string;
  (** [stripe.Webhook.construct_event(payload, sig_header, secret)] *)
  construct_event : string -> option string -> string -> ConstructResult
}.

(** ** Python and SQL primitives *)

(** [int(x)] on a float: truncation towards zero. *)
Definition py_int (t : Q) : Z :=
  if Qlt_le_dec t 0 then Qceiling t else Qfloor t.

(** [n < x] for an int [n] and a float [x]; Python compares the exact values. *)
Definition int_lt_float (n : Z) (t : Q) : bool :=
  if Qlt_le_dec (inject_Z n) t then true else false.

(** [SELECT ... FROM users WHERE p]. *)
Definition sql_select (p : User -> Prop) `{!forall u, Decision (p u)} (db : DB) : list User :=
  filter p db.

(** [cursor.fetchone()]. *)
Definition fetchone (rows : list User) : option User := head rows.

(** [UPDATE users SET ... WHERE p]: every matching row is rewritten in place. *)
Definition sql_update (p : User -> Prop) `{!forall u, Decision (p u)}
    (set : User -> User) (db : DB) : DB :=
  (fun u => if decide (p u) then set u else u) <$> db.

(** [INSERT INTO users]: [None] is [sqlite3.IntegrityError], raised when the
    PRIMARY KEY on [email] or the UNIQUE constraint on [api_key] is violated. *)
Definition sql_insert (u : User) (db : DB) : option DB :=
  if decide (email u ∈ email <$> db \/ api_key u ∈ api_key <$> db)
  then None
  else Some (db ++ [u])%list.

(** The SET clauses of the program. *)
Definition set_plan_workers (p : string) (w : Z) (u : User) : User :=
  mkUser (email u) (api_key u) (stripe_customer_id u) (stripe_subscription_id u)
         p (expires_at u) w (created_at u).

Definition set_plan_workers_sub (p : string) (w : Z) (s : option string) (u : User) : User :=
  mkUser (email u) (api_key u) (stripe_customer_id u) s
         p (expires_at u) w (created_at u).

(** The WHERE clauses.  A NULL [stripe_subscription_id] matches no parameter. *)
Definition has_email (e : string) (u : User) : Prop := email u = e.
Definition has_api_key (k : string) (u : User) : Prop := api_key u = k.
Definition has_subscription (s : string) (u : User) : Prop :=
  stripe_subscription_id u = Some s.

#[global] Instance has_email_dec e u : Decision (has_email e u).
Proof. unfold has_email. apply _. Defined.
#[global] Instance has_api_key_dec k u : Decision (has_api_key k u).
Proof. unfold has_api_key. apply _. Defined.
#[global] Instance has_subscription_dec s u : Decision (has_subscription s u).
Proof. unfold has_subscription. apply _. Defined.

(** ** The handlers *)

(** [GET /health] *)
Definition health (db : DB) : Response * DB :=
  (Reply 200 {[ "status" := JStr "healthy" ]}, db).

(** [POST /auth/register]; [req_email] is [request.json.get('email')]. *)
Definition register (w : World) (req_email : option string) (db : DB) : Response * DB :=
  match req_email with
  | None | Some EmptyString => (Reply 400 {[ "error" := JStr "Email required" ]}, db)
  | Some e =>
    let key := "mk_" ++ token_urlsafe w in
    let expires := py_int (trial_end_timestamp w) in
    match Customer_create w e key with
    | StripeOk customer_id =>
      match sql_insert (mkUser e key customer_id None "trial" expires 1 (sqlite_now w)) db with
      | Some db' =>
        (Reply 200 {[ "api_key" := JStr key; "plan" := JStr "trial";
                      "trial_ends" := JInt expires ]}, db')
      | None =>
        (* except sqlite3.IntegrityError *)
        match fetchone (sql_select (has_email e) db) with
        | Some user =>
          (Reply 200 {[ "api_key" := JStr (api_key user); "plan" := JStr (plan user);
                        "existing_user" := JBool true ]}, db)
        | None =>
          (Unhandled (TypeError "'NoneType' object is not subscriptable"), db)
        end
      end
    | StripeError _ =>
      (* except stripe.error.StripeError as e: 'Payment processor error ' + e *)
      (Unhandled (TypeError "can only concatenate str (not StripeError) to str"), db)
    end
  end.

(** The two answers [verify] can build from the row alone. *)
Definition trial_expired_reply : Response :=
  Reply 200 {[ "valid" := JBool true; "plan" := JStr "trial_expired";
               "max_workers" := JInt 1; "trial_expired" := JBool true ]}.

Definition cached_reply (u : User) : Response :=
  Reply 200 {[ "valid" := JBool true; "plan" := JStr (plan u);
               "max_workers" := JInt (max_workers u); "email" := JStr (email u) ]}.

(** [GET /auth/verify]; [hdr] is [request.headers.get('X-API-Key')]. *)
Definition verify (w : World) (hdr : option string) (db : DB) : Response * DB :=
  match hdr with
  | None | Some EmptyString =>
    (Reply 401 {[ "valid" := JBool false; "error" := JStr "No API key provided" ]}, db)
  | Some key =>
    match fetchone (sql_select (has_api_key key) db) with
    | None =>
      (Reply 401 {[ "valid" := JBool false; "error" := JStr "Invalid API key" ]}, db)
    | Some user =>
      let check_trial :=
        if bool_decide (plan user = "trial") && int_lt_float (expires_at user) (now_timestamp w)
        then (trial_expired_reply, db)
        else (cached_reply user, db) in
      match stripe_subscription_id user with
      | None | Some EmptyString => check_trial
      | Some sub_id =>
        match Subscription_retrieve w sub_id with
        | StripeOk status =>
          if bool_decide (status ≠ "active")
          then (Reply 200 {[ "valid" := JBool true; "plan" := JStr "free";
                             "max_workers" := JInt 1; "subscription_expired" := JBool true ]},
                sql_update (has_api_key key) (set_plan_workers "free" 1) db)
          else check_trial
        | StripeError _ => check_trial (* pass: continue with cached status *)
        end
      end
    end
  end.

(** [POST /billing/create-checkout] *)
Definition create_checkout (w : World) (hdr : option string) (db : DB) : Response * DB :=
  match hdr with
  | None | Some EmptyString =>
    (Reply 401 {[ "error" := JStr "Authentication required" ]}, db)
  | Some key =>
    match fetchone (sql_select (has_api_key key) db) with
    | None => (Reply 401 {[ "error" := JStr "Invalid API key" ]}, db)
    | Some user =>
      let customer_id := stripe_customer_id user in
      let customer_email :=
        match customer_id with EmptyString => Some (email user) | _ => None end in
      match Session_create w customer_id customer_email (STRIPE_PRICE_ID w) key with
      | StripeOk url => (Reply 200 {[ "url" := JStr url ]}, db)
      | StripeError msg => (Reply 500 {[ "error" := JStr msg ]}, db)
      end
    end
  end.

(** [POST /billing/cancel] *)
Definition cancel_subscription (w : World) (hdr : option string) (db : DB) : Response * DB :=
  match hdr with
  | None | Some EmptyString =>
    (Reply 401 {[ "error" := JStr "Authentication required" ]}, db)
  | Some key =>
    match stripe_subscription_id <$> fetchone (sql_select (has_api_key key) db) with
    | None | Some None | Some (Some EmptyString) =>
      (Reply 400 {[ "error" := JStr "No active subscription" ]}, db)
    | Some (Some sub_id) =>
      match Subscription_modify w sub_id with
      | StripeOk _ =>
        (Reply 200 {[ "success" := JBool true;
                      "message" := JStr "Subscription will cancel at period end" ]}, db)
      | StripeError msg => (Reply 500 {[ "error" := JStr msg ]}, db)
      end
    end
  end.

(** The part of [webhook] after the event has been constructed
    (main.py, lines 244-298). *)
Definition apply_event (ev : Event) (db : DB) : DB :=
  let obj := ev_object ev in
  if bool_decide (ev_type ev = "checkout.session.completed") then
    match obj_metadata obj !! "api_key" with
    | None | Some EmptyString => db
    | Some key =>
      sql_update (has_api_key key)
                 (set_plan_workers_sub "pro" 8 (obj_subscription obj)) db
    end
  else if bool_decide (ev_type ev = "customer.subscription.updated") then
    if bool_decide (obj_status obj = "active") then
      sql_update (has_subscription (obj_id obj)) (set_plan_workers "pro" 8) db
    else if bool_decide (obj_status obj ∈ ["canceled"; "unpaid"]) then
      sql_update (has_subscription (obj_id obj)) (set_plan_workers "free" 1) db
    else db
  else if bool_decide (ev_type ev = "customer.subscription.deleted") then
    sql_update (has_subscription (obj_id obj)) (set_plan_workers_sub "free" 1 None) db
  else db.

(** [POST /billing/webhook]; [payload] is [request.get_data()] and
    [sig_header] is [request.headers.get('Stripe-Signature')]. *)
Definition webhook (w : World) (payload : string) (sig_header : option string) (db : DB)
    : Response * DB :=
  match construct_event w payload sig_header (STRIPE_WEBHOOK_SECRET w) with
  | ValueError | SignatureVerificationError =>
    (Reply 400 {[ "error" := JStr "Invalid signature" ]}, db)
  | Constructed ev =>
    (Reply 200 {[ "received" := JBool true ]}, apply_event ev db)
  end.

(** [SUM(CASE WHEN plan = p THEN 1 ELSE 0 END)]: NULL over an empty table. *)
Definition sum_plan (p : string) (db : DB) : jval :=
  match db with
  | [] => JNull
  | _ => JInt (Z.of_nat (length (filter (fun u => plan u = p) db)))
  end.

(** [GET /admin/stats] *)
Definition admin_stats (db : DB) : Response * DB :=
  (Reply 200 {[ "total_users" := JInt (Z.of_nat (length db));
                "trial_users" := sum_plan "trial" db;
                "pro_users" := sum_plan "pro" db;
                "free_users" := sum_plan "free" db ]}, db).

(** ** The service as a transition system *)

Inductive Request :=
| GET_health
| POST_auth_register (req_email : option string)
| GET_auth_verify (x_api_key : option string)
| POST_billing_create_checkout (x_api_key : option string)
| POST_billing_cancel (x_api_key : option string)
| POST_billing_webhook (payload : string) (stripe_signature : option string)
| GET_admin_stats.

Definition handle (w : World) (r : Request) (db : DB) : Response * DB :=
  match r with
  | GET_health => health db
  | POST_auth_register e => register w e db
  | GET_auth_verify k => verify w k db
  | POST_billing_create_checkout k => create_checkout w k db
  | POST_billing_cancel k => cancel_subscription w k db
  | POST_billing_webhook p s => webhook w p s db
  | GET_admin_stats => admin_stats db
  end.

(** States the service can be in: the empty table, then any sequence of
    requests, each served in a world of its own. *)
Inductive reachable : DB -> Prop :=
| reachable_init : reachable init_db
| reachable_step w r db : reachable db -> reachable (handle w r db).2.

(** ** Table invariants *)

(** The constraints of the schema ([email] PRIMARY KEY, [api_key] UNIQUE)
    together with what [register] guarantees of the two columns it fills:
    neither is the empty string. *)
Definition db_ok (db : DB) : Prop :=
  NoDup (email <$> db) /\ NoDup (api_key <$> db) /\
  Forall (fun u => email u ≠ EmptyString) db /\
  Forall (fun u => api_key u ≠ EmptyString) db.

#[global] Instance db_ok_dec db : Decision (db_ok db).
Proof. unfold db_ok. apply _. Defined.

(** Every account may run one worker or eight. *)
Definition workers_ok (db : DB) : Prop :=
  Forall (fun u => max_workers u = 1 \/ max_workers u = 8) db.

#[global] Instance workers_ok_dec db : Decision (workers_ok db).
Proof. unfold workers_ok. apply _. Defined.

(** A SET clause that leaves the two key columns alone. *)
Definition keeps_keys (set : User -> User) : Prop :=
  forall u, email (set u) = email u /\ api_key (set u) = api_key u.

(** ** What the spec says, and what the live check can report *)

(** The live subscription check of [verify] runs and finds the
    subscription in a status other than [active]. *)
Definition reports_inactive (w : World) (u : User) : Prop :=
  exists sid status,
    stripe_subscription_id u = Some sid /\ sid ≠ EmptyString /\
    Subscription_retrieve w sid = StripeOk status /\ status ≠ "active".

(** The spec's reading of [customer.subscription.updated]: the matching
    account becomes pro/8 when the status is [active] and free/1 for
    every other status. *)
Definition spec_subscription_updated
    (w : World) (payload : string) (sig_header : option string) (db : DB) : Prop :=
  forall ev,
    construct_event w payload sig_header (STRIPE_WEBHOOK_SECRET w) = Constructed ev ->
    ev_type ev = "customer.subscription.updated" ->
    forall i u,
      db !! i = Some u ->
      stripe_subscription_id u = Some (obj_id (ev_object ev)) ->
      (webhook w payload sig_header db).2 !! i =
        Some (if bool_decide (obj_status (ev_object ev) = "active")
              then set_plan_workers "pro" 8 u
              else set_plan_workers "free" 1 u).

(** The spec's reading of repeated registration: for an email that has
    an account, [register] answers with the stored [api_key] and leaves
    the table as it was. *)
Definition spec_register_idempotent (w : World) (db : DB) (u : User) : Prop :=
  db_ok db -> u ∈ db ->
  (register w (Some (email u)) db).2 = db /\
  json_body (register w (Some (email u)) db).1 ≫= lookup "api_key"
    = Some (JStr (api_key u)).

(** ** Sample data *)

(** A world in which the token is [tok], the clock reads [now], and the
    Stripe SDK answers [cust] to Customer.create, [status] to
    Subscription.retrieve and [ev] to Webhook.construct_event. *)
Definition sample_world (tok : string) (now : Z)
    (cust status : StripeResult string) (ev : ConstructResult) : World :=
  mkWorld "whsec_test" "price_test" tok (inject_Z now) (inject_Z (now + 604800)) now
          (fun _ _ => cust) (fun _ => status) (fun _ => StripeOk tt)
          (fun _ _ _ _ => StripeOk "https://checkout.stripe.com/pay/cs_test")
          (fun _ _ _ => ev).

Definition alice : User :=
  mkUser "alice@example.com" "mk_alice" "cus_A" (Some "sub_A") "pro" 1700604800 8 1700000000.

Definition bob : User :=
  mkUser "bob@example.com" "mk_bob" "cus_B" None "trial" 1700604800 1 1700000000.

Definition carol : User :=
  mkUser "carol@example.com" "mk_carol" "cus_C" (Some "sub_C") "trial" 1700604800 1 1700000000.

Definition sample_db : DB := [alice; bob; carol].

Definition subscription_event (type id status : string) : Event :=
  mkEvent type (mkObject id status None ∅).

Definition checkout_event (metadata : gmap string string) (sub : option string) : Event :=
  mkEvent "checkout.session.completed" (mkObject "cs_test_1" "complete" sub metadata).

(** ** Shape of a stored account *)

(** The combinations of [plan], [max_workers] and [stripe_subscription_id]
    the handlers write, and the tag [register] puts in front of every key. *)
Definition account_ok (u : User) : Prop :=
  (plan u = "trial" /\ max_workers u = 1 /\ stripe_subscription_id u = None \/
   plan u = "free" /\ max_workers u = 1 \/
   plan u = "pro" /\ max_workers u = 8) /\
  String.prefix "mk_" (api_key u) = true.

#[global] Instance account_ok_dec u : Decision (account_ok u).
Proof. unfold account_ok. apply _. Defined.

(** The header carries a key that some account holds. *)
Definition known_key (hdr : option string) (db : DB) : Prop :=
  exists key u, hdr = Some key /\ key ≠ EmptyString /\ u ∈ db /\ api_key u = key.

(** The columns no UPDATE of the program touches. *)
Definition same_identity (u u' : User) : Prop :=
  email u' = email u /\ api_key u' = api_key u /\
  stripe_customer_id u' = stripe_customer_id u /\
  expires_at u' = expires_at u /\ created_at u' = created_at u.

(** A table two requests have been served on, starting from the empty one. *)
Definition served_db : DB :=
  (handle (sample_world "t" 1700000100 (StripeOk "cus_1") (StripeOk "active")
             (Constructed (checkout_event {[ "api_key" := "mk_dave" ]} (Some "sub_D"))))
          (POST_billing_webhook "{}" (Some "t=1,v1=00"))
          (handle (sample_world "dave" 1700000000 (StripeOk "cus_D") (StripeOk "active")
                                ValueError)
                  (POST_auth_register (Some "dave@example.com")) init_db).2).2.

(** * Properties *)

(** ** Facts about the SQL primitives *)

Section SqlFacts.
Context (p : User -> Prop) {p_dec : forall u, Decision (p u)}.

Lemma sql_update_lookup set db i :
  sql_update p set db !! i =
  (fun u => if decide (p u) then set u else u) <$> db !! i.
Proof. unfold sql_update. apply list_lookup_fmap. Qed.

Lemma sql_update_length set db : length (sql_update p set db) = length db.
Proof. unfold sql_update. apply length_fmap. Qed.

Lemma sql_update_columns set db :
  keeps_keys set ->
  email <$> sql_update p set db = email <$> db /\
  api_key <$> sql_update p set db = api_key <$> db.
Proof.
  intros Hk. unfold sql_update. rewrite <- !list_fmap_compose.
  split; apply list_fmap_ext; intros i u _; simpl;
    case_decide; try done; apply Hk.
Qed.

Lemma sql_update_db_ok set db :
  keeps_keys set -> db_ok db -> db_ok (sql_update p set db).
Proof.
  intros Hk (He & Ha & Hne & Hna).
  destruct (sql_update_columns set db Hk) as [E A].
  unfold db_ok. rewrite E, A. repeat split; try done.
  - unfold sql_update. apply Forall_fmap. eapply Forall_impl; [exact Hne|].
    intros u Hu. simpl. case_decide; [|done]. by rewrite (proj1 (Hk u)).
  - unfold sql_update. apply Forall_fmap. eapply Forall_impl; [exact Hna|].
    intros u Hu. simpl. case_decide; [|done]. by rewrite (proj2 (Hk u)).
Qed.

Lemma sql_update_workers_ok set db :
  (forall u, max_workers (set u) = 1 \/ max_workers (set u) = 8) ->
  workers_ok db -> workers_ok (sql_update p set db).
Proof.
  intros Hs Hdb. unfold workers_ok, sql_update. apply Forall_fmap.
  eapply Forall_impl; [exact Hdb|]. intros u Hu. simpl.
  case_decide; [apply Hs | exact Hu].
Qed.

Lemma fetchone_none db :
  (forall u, u ∈ db -> ¬ p u) -> fetchone (sql_select p db) = None.
Proof.
  intros Hn. unfold fetchone, sql_select.
  destruct (filter p db) as [|v l] eqn:E; [done|].
  assert (v ∈ filter p db) as Hv by (rewrite E; left).
  apply list_elem_of_filter in Hv as [Hp Hin]. by destruct (Hn v Hin).
Qed.

Lemma fetchone_some db u :
  fetchone (sql_select p db) = Some u -> u ∈ db /\ p u.
Proof.
  unfold fetchone, sql_select. intros H.
  destruct (filter p db) as [|v l] eqn:E; [done|]. simpl in H.
  injection H as ->. assert (u ∈ filter p db) as Hv by (rewrite E; left).
  apply list_elem_of_filter in Hv. tauto.
Qed.
End SqlFacts.

Lemma keeps_keys_plan_workers pl n : keeps_keys (set_plan_workers pl n).
Proof. by intros u. Qed.

Lemma keeps_keys_plan_workers_sub pl n s : keeps_keys (set_plan_workers_sub pl n s).
Proof. by intros u. Qed.

(** Under the UNIQUE constraint a key selects the one account that holds it. *)
Lemma fetchone_api_key db u :
  NoDup (api_key <$> db) -> u ∈ db ->
  fetchone (sql_select (has_api_key (api_key u)) db) = Some u.
Proof.
  unfold fetchone, sql_select. induction db as [|v db IH]; intros Hnd Hin.
  - by apply elem_of_nil in Hin.
  - rewrite fmap_cons in Hnd. apply NoDup_cons in Hnd as [Hv Hnd].
    rewrite filter_cons. apply elem_of_cons in Hin as [->|Hin].
    + by rewrite decide_True.
    + rewrite decide_False; [by apply IH|].
      unfold has_api_key. intros Heq. apply Hv. rewrite Heq.
      by apply list_elem_of_fmap_2.
Qed.

(** The same for the PRIMARY KEY. *)
Lemma fetchone_email db u :
  NoDup (email <$> db) -> u ∈ db ->
  fetchone (sql_select (has_email (email u)) db) = Some u.
Proof.
  unfold fetchone, sql_select. induction db as [|v db IH]; intros Hnd Hin.
  - by apply elem_of_nil in Hin.
  - rewrite fmap_cons in Hnd. apply NoDup_cons in Hnd as [Hv Hnd].
    rewrite filter_cons. apply elem_of_cons in Hin as [->|Hin].
    + by rewrite decide_True.
    + rewrite decide_False; [by apply IH|].
      unfold has_email. intros Heq. apply Hv. rewrite Heq.
      by apply list_elem_of_fmap_2.
Qed.

Lemma sql_insert_exists u v db :
  v ∈ db -> email v = email u -> sql_insert u db = None.
Proof.
  intros Hin He. unfold sql_insert. rewrite decide_True; [done|].
  left. rewrite <- He. by apply list_elem_of_fmap_2.
Qed.

Lemma sql_insert_db_ok u db db' :
  email u ≠ EmptyString -> api_key u ≠ EmptyString ->
  sql_insert u db = Some db' -> db_ok db -> db_ok db'.
Proof.
  unfold sql_insert. intros Hue Hua H (He & Ha & Hne & Hna).
  case_decide as Hd; [done|]. injection H as <-.
  unfold db_ok. rewrite !fmap_app. simpl.
  repeat split.
  - apply NoDup_app. repeat split; [done| |apply NoDup_singleton].
    intros x Hx Hx'. apply list_elem_of_singleton in Hx' as ->. tauto.
  - apply NoDup_app. repeat split; [done| |apply NoDup_singleton].
    intros x Hx Hx'. apply list_elem_of_singleton in Hx' as ->. tauto.
  - apply Forall_app. split; [done|]. by apply Forall_singleton.
  - apply Forall_app. split; [done|]. by apply Forall_singleton.
Qed.

Lemma sql_insert_workers_ok u db db' :
  max_workers u = 1 -> sql_insert u db = Some db' -> workers_ok db -> workers_ok db'.
Proof.
  unfold sql_insert, workers_ok. intros Hu H Hdb.
  case_decide; [done|]. injection H as <-.
  apply Forall_app. split; [done|]. apply Forall_singleton. by left.
Qed.

(** ** Every handler keeps the invariants *)

Lemma apply_event_cases ev db :
  apply_event ev db = db \/
  exists (p : User -> Prop) (p_dec : forall u, Decision (p u)) set,
    apply_event ev db = sql_update p set db /\
    (set = set_plan_workers "pro" 8 \/ set = set_plan_workers "free" 1 \/
     set = set_plan_workers_sub "free" 1 None \/
     set = set_plan_workers_sub "pro" 8 (obj_subscription (ev_object ev))).
Proof.
  unfold apply_event.
  repeat case_bool_decide; repeat case_match; eauto 10.
Qed.

Lemma set_clause_keeps_keys ev set :
  set = set_plan_workers "pro" 8 \/ set = set_plan_workers "free" 1 \/
  set = set_plan_workers_sub "free" 1 None \/
  set = set_plan_workers_sub "pro" 8 (obj_subscription (ev_object ev)) ->
  keeps_keys set.
Proof. intros [->|[->|[->| ->]]]; by intros u. Qed.

Lemma set_clause_workers ev set :
  set = set_plan_workers "pro" 8 \/ set = set_plan_workers "free" 1 \/
  set = set_plan_workers_sub "free" 1 None \/
  set = set_plan_workers_sub "pro" 8 (obj_subscription (ev_object ev)) ->
  forall u, max_workers (set u) = 1 \/ max_workers (set u) = 8.
Proof. intros [->|[->|[->| ->]]] u; simpl; auto. Qed.

Lemma apply_event_db_ok ev db : db_ok db -> db_ok (apply_event ev db).
Proof.
  intros Hdb. destruct (apply_event_cases ev db) as [->|(p & p_dec & set & -> & Hset)];
    [done|]. apply sql_update_db_ok; [|done]. by eapply set_clause_keeps_keys.
Qed.

Lemma apply_event_workers_ok ev db : workers_ok db -> workers_ok (apply_event ev db).
Proof.
  intros Hdb. destruct (apply_event_cases ev db) as [->|(p & p_dec & set & -> & Hset)];
    [done|]. apply sql_update_workers_ok; [|done]. by eapply set_clause_workers.
Qed.

(** [verify] writes nothing, or downgrades the rows holding the key. *)
Lemma verify_db_cases w hdr db :
  (verify w hdr db).2 = db \/
  exists key, (verify w hdr db).2 = sql_update (has_api_key key) (set_plan_workers "free" 1) db.
Proof.
  unfold verify. repeat (case_match; simpl; eauto).
Qed.

(** [register] writes nothing, or appends one fresh trial row. *)
Lemma register_db_cases w e db :
  (register w e db).2 = db \/
  exists u, e = Some (email u) /\
            email u ≠ EmptyString /\ api_key u ≠ EmptyString /\ max_workers u = 1 /\
            sql_insert u db = Some (register w e db).2.
Proof.
  unfold register. repeat (case_match; simpl; eauto).
  right. match goal with H : sql_insert ?u _ = Some _ |- _ => exists u end.
  by repeat split.
Qed.

Lemma read_only_handlers w k db :
  (health db).2 = db /\ (create_checkout w k db).2 = db /\
  (cancel_subscription w k db).2 = db /\ (admin_stats db).2 = db.
Proof.
  unfold create_checkout, cancel_subscription. repeat split;
    repeat (case_match; simpl; try done).
Qed.

Lemma handle_db_ok w r db : db_ok db -> db_ok (handle w r db).2.
Proof.
  intros Hdb. destruct r as [|e|k|k|k|pl sg|]; simpl.
  - done.
  - destruct (register_db_cases w e db) as [->|(u & _ & ? & ? & ? & Hi)]; [done|].
    by eapply sql_insert_db_ok.
  - destruct (verify_db_cases w k db) as [->|[key ->]]; [done|].
    apply sql_update_db_ok; [apply keeps_keys_plan_workers|done].
  - by rewrite (proj1 (proj2 (read_only_handlers w k db))).
  - by rewrite (proj1 (proj2 (proj2 (read_only_handlers w k db)))).
  - unfold webhook. case_match; simpl; try done. by apply apply_event_db_ok.
  - done.
Qed.

Lemma reachable_db_ok db : reachable db -> db_ok db.
Proof.
  induction 1 as [|w r db _ IH].
  - unfold db_ok, init_db. simpl. repeat split; constructor.
  - by apply handle_db_ok.
Qed.

(** ** Webhook reconciliation *)

(** C1. When [construct_event] does not return an event (it raised
    SignatureVerificationError or ValueError: the signature header is
    missing, malformed, or does not match the raw body under the webhook
    secret), [webhook] answers 400 with [Invalid signature] and the
    table is unchanged. *)
Theorem webhook_rejects_unverified w payload sig_header db :
  (forall ev, construct_event w payload sig_header (STRIPE_WEBHOOK_SECRET w) ≠ Constructed ev) ->
  webhook w payload sig_header db =
    (Reply 400 {[ "error" := JStr "Invalid signature" ]}, db).
Proof.
  intros Hfail. unfold webhook.
  destruct (construct_event _ _ _ _) as [ev| |] eqn:E; [|done..].
  by destruct (Hfail ev).
Qed.

Lemma webhook_rejects_unverified_witness :
  webhook (sample_world "t" 1700000000 (StripeOk "cus_1") (StripeOk "active")
                        SignatureVerificationError)
          "{}" None sample_db =
    (Reply 400 {[ "error" := JStr "Invalid signature" ]}, sample_db).
Proof.
  apply (webhook_rejects_unverified
           (sample_world "t" 1700000000 (StripeOk "cus_1") (StripeOk "active")
                         SignatureVerificationError) "{}" None sample_db).
  intros ev. simpl. discriminate.
Defined.

(** C10. A verified [checkout.session.completed] event whose session
    metadata has no [api_key] entry runs no UPDATE: the table is unchanged
    and the handler still acknowledges with [received: true]. *)
Theorem checkout_without_api_key_is_noop w payload sig_header db ev :
  construct_event w payload sig_header (STRIPE_WEBHOOK_SECRET w) = Constructed ev ->
  ev_type ev = "checkout.session.completed" ->
  obj_metadata (ev_object ev) !! "api_key" = None ->
  webhook w payload sig_header db = (Reply 200 {[ "received" := JBool true ]}, db).
Proof.
  intros Hev Hty Hmd. unfold webhook. rewrite Hev. f_equal.
  unfold apply_event. rewrite bool_decide_eq_true_2 by done. by rewrite Hmd.
Qed.

Lemma checkout_without_api_key_is_noop_witness :
  webhook (sample_world "t" 1700000000 (StripeOk "cus_1") (StripeOk "active")
                        (Constructed (checkout_event ∅ (Some "sub_new"))))
          "{}" (Some "t=1,v1=00") sample_db =
    (Reply 200 {[ "received" := JBool true ]}, sample_db).
Proof.
  apply (checkout_without_api_key_is_noop
           (sample_world "t" 1700000000 (StripeOk "cus_1") (StripeOk "active")
                         (Constructed (checkout_event ∅ (Some "sub_new"))))
           "{}" (Some "t=1,v1=00") sample_db (checkout_event ∅ (Some "sub_new")));
    reflexivity.
Defined.

(** C4. A verified [customer.subscription.deleted] event rewrites every
    account whose stored subscription id is the event's: whatever its plan
    was, the row ends with plan [free], one worker and a NULL subscription
    id, its other columns untouched; the handler acknowledges. *)
Theorem subscription_deleted_downgrades w payload sig_header db ev :
  construct_event w payload sig_header (STRIPE_WEBHOOK_SECRET w) = Constructed ev ->
  ev_type ev = "customer.subscription.deleted" ->
  (webhook w payload sig_header db).1 = Reply 200 {[ "received" := JBool true ]} /\
  forall i u,
    db !! i = Some u ->
    stripe_subscription_id u = Some (obj_id (ev_object ev)) ->
    (webhook w payload sig_header db).2 !! i =
      Some (mkUser (email u) (api_key u) (stripe_customer_id u) None
                   "free" (expires_at u) 1 (created_at u)).
Proof.
  intros Hev Hty. unfold webhook. rewrite Hev. simpl. split; [done|].
  intros i u Hi Hsub. unfold apply_event. rewrite Hty. simpl.
  rewrite sql_update_lookup, Hi. simpl. by rewrite decide_True.
Qed.

Lemma subscription_deleted_downgrades_witness :
  (webhook (sample_world "t" 1700000000 (StripeOk "cus_1") (StripeOk "active")
              (Constructed (subscription_event "customer.subscription.deleted"
                                               "sub_A" "canceled")))
           "{}" (Some "t=1,v1=00") sample_db).2 !! 0%nat =
    Some (mkUser "alice@example.com" "mk_alice" "cus_A" None "free" 1700604800 1 1700000000).
Proof.
  apply (proj2 (subscription_deleted_downgrades
           (sample_world "t" 1700000000 (StripeOk "cus_1") (StripeOk "active")
              (Constructed (subscription_event "customer.subscription.deleted"
                                               "sub_A" "canceled")))
           "{}" (Some "t=1,v1=00") sample_db
           (subscription_event "customer.subscription.deleted" "sub_A" "canceled")
           eq_refl eq_refl) 0%nat alice); reflexivity.
Defined.

(** C5, as stated, fails: an update to status [past_due] leaves a pro
    account at pro/8. *)
Lemma subscription_updated_past_due_counterexample :
  ¬ spec_subscription_updated
      (sample_world "t" 1700000000 (StripeOk "cus_1") (StripeOk "active")
         (Constructed (subscription_event "customer.subscription.updated"
                                          "sub_A" "past_due")))
      "{}" (Some "t=1,v1=00") sample_db.
Proof.
  intros H.
  specialize (H (subscription_event "customer.subscription.updated" "sub_A" "past_due")
                eq_refl eq_refl 0%nat alice eq_refl eq_refl).
  vm_compute in H. discriminate H.
Qed.

(** C5, amended. A verified [customer.subscription.updated] event sets
    every account holding the event's subscription id to pro/8 when the
    status is [active], to free/1 when the status is [canceled] or
    [unpaid], and changes no row for any other status. *)
Theorem subscription_updated_transitions w payload sig_header db ev :
  construct_event w payload sig_header (STRIPE_WEBHOOK_SECRET w) = Constructed ev ->
  ev_type ev = "customer.subscription.updated" ->
  let status := obj_status (ev_object ev) in
  let db' := (webhook w payload sig_header db).2 in
  (webhook w payload sig_header db).1 = Reply 200 {[ "received" := JBool true ]} /\
  (forall i u,
     db !! i = Some u -> stripe_subscription_id u = Some (obj_id (ev_object ev)) ->
     (status = "active" ->
      db' !! i = Some (mkUser (email u) (api_key u) (stripe_customer_id u)
                              (stripe_subscription_id u) "pro" (expires_at u) 8
                              (created_at u))) /\
     (status = "canceled" \/ status = "unpaid" ->
      db' !! i = Some (mkUser (email u) (api_key u) (stripe_customer_id u)
                              (stripe_subscription_id u) "free" (expires_at u) 1
                              (created_at u)))) /\
  (status ≠ "active" -> status ≠ "canceled" -> status ≠ "unpaid" -> db' = db).
Proof.
  intros Hev Hty status db'. subst db'. unfold webhook. rewrite Hev. simpl.
  split; [done|]. unfold apply_event. rewrite Hty. simpl.
  fold status. split.
  - intros i u Hi Hsub. split.
    + intros Hst. rewrite (bool_decide_eq_true_2 _ Hst).
      rewrite sql_update_lookup, Hi. simpl. by rewrite decide_True.
    + intros Hst. rewrite bool_decide_eq_false_2 by (destruct Hst as [-> | ->]; done).
      rewrite bool_decide_eq_true_2
        by (apply list_elem_of_In; simpl; intuition congruence).
      rewrite sql_update_lookup, Hi. simpl. by rewrite decide_True.
  - intros Ha Hc Hu. rewrite (bool_decide_eq_false_2 _ Ha).
    rewrite bool_decide_eq_false_2; [done|].
    intros Hin. apply list_elem_of_In in Hin. simpl in Hin. intuition congruence.
Qed.

Lemma subscription_updated_transitions_witness :
  (webhook (sample_world "t" 1700000000 (StripeOk "cus_1") (StripeOk "active")
              (Constructed (subscription_event "customer.subscription.updated"
                                               "sub_A" "unpaid")))
           "{}" (Some "t=1,v1=00") sample_db).2 !! 0%nat =
    Some (mkUser "alice@example.com" "mk_alice" "cus_A" (Some "sub_A") "free"
                 1700604800 1 1700000000).
Proof.
  apply (proj1 (proj2 (subscription_updated_transitions
           (sample_world "t" 1700000000 (StripeOk "cus_1") (StripeOk "active")
              (Constructed (subscription_event "customer.subscription.updated"
                                               "sub_A" "unpaid")))
           "{}" (Some "t=1,v1=00") sample_db
           (subscription_event "customer.subscription.updated" "sub_A" "unpaid")
           eq_refl eq_refl)) 0%nat alice eq_refl eq_refl).
  right. reflexivity.
Defined.

(** ** Entitlement resolution *)

(** C6. When the X-API-Key header is absent, or carries a key that no
    stored account has, [verify] answers 401 with [valid: false] and the
    table is unchanged. *)
Theorem verify_unknown_key_unauthorized w hdr db :
  (forall key, hdr = Some key -> forall u, u ∈ db -> api_key u ≠ key) ->
  exists msg,
    verify w hdr db =
      (Reply 401 {[ "valid" := JBool false; "error" := JStr msg ]}, db).
Proof.
  intros Hunknown. unfold verify.
  destruct hdr as [[|c key]|]; [by eexists| |by eexists].
  rewrite fetchone_none; [by eexists|].
  intros u Hin. by apply Hunknown.
Qed.

Lemma verify_unknown_key_unauthorized_witness :
  exists msg,
    verify (sample_world "t" 1700000000 (StripeOk "cus_1") (StripeOk "active") ValueError)
           (Some "mk_nobody") sample_db =
      (Reply 401 {[ "valid" := JBool false; "error" := JStr msg ]}, sample_db).
Proof.
  apply (verify_unknown_key_unauthorized
           (sample_world "t" 1700000000 (StripeOk "cus_1") (StripeOk "active") ValueError)
           (Some "mk_nobody") sample_db).
  intros key [= <-] u Hu. apply list_elem_of_In in Hu. simpl in Hu.
  destruct Hu as [<-|[<-|[<-|[]]]]; discriminate.
Defined.

Lemma int_lt_float_spec n t : int_lt_float n t = true <-> (inject_Z n < t)%Q.
Proof.
  unfold int_lt_float. destruct (Qlt_le_dec (inject_Z n) t) as [Hlt|Hle].
  - tauto.
  - split; [done|]. intros Hlt. by destruct (Qlt_not_le _ _ Hlt).
Qed.

(** Whenever the live check does not report an inactive subscription
    (no subscription id, a failed query, or status [active]), [verify]
    answers from the stored row and writes nothing. *)
Lemma verify_from_cache w db u :
  db_ok db -> u ∈ db -> ¬ reports_inactive w u ->
  verify w (Some (api_key u)) db =
    (if bool_decide (plan u = "trial") && int_lt_float (expires_at u) (now_timestamp w)
     then trial_expired_reply else cached_reply u, db).
Proof.
  intros (_ & Hkeys & _ & Hne) Hin Hact. unfold verify.
  assert (api_key u ≠ EmptyString) as Hk
    by (rewrite Forall_forall in Hne; by apply Hne).
  destruct (api_key u) as [|c key] eqn:Ek; [done|]. rewrite <- Ek.
  rewrite (fetchone_api_key db u Hkeys Hin).
  unfold trial_expired_reply, cached_reply.
  destruct (stripe_subscription_id u) as [[|c' sid]|] eqn:Es;
    [by case_match| |by case_match].
  destruct (Subscription_retrieve w (String c' sid)) as [status|msg] eqn:Er;
    [|by case_match].
  case_bool_decide as Hst; [|by case_match].
  destruct Hact. exists (String c' sid), status. by repeat split.
Qed.

(** C3. For an account whose stored plan is [trial] and whose expiry is
    strictly before the current time, and for which the live subscription
    check does not report an inactive subscription, [verify] with the account's key
    answers plan [trial_expired] with [max_workers] 1, and the table,
    hence the account's stored plan [trial], is unchanged. *)
Theorem verify_trial_expired_keeps_stored_plan w db u :
  db_ok db -> u ∈ db ->
  plan u = "trial" ->
  (inject_Z (expires_at u) < now_timestamp w)%Q ->
  ¬ reports_inactive w u ->
  verify w (Some (api_key u)) db =
    (Reply 200 {[ "valid" := JBool true; "plan" := JStr "trial_expired";
                  "max_workers" := JInt 1; "trial_expired" := JBool true ]}, db) /\
  (forall i, db !! i = Some u ->
             plan <$> (verify w (Some (api_key u)) db).2 !! i = Some "trial").
Proof.
  intros Hok Hin Hplan Hexp Hact.
  rewrite (verify_from_cache w db u Hok Hin Hact).
  rewrite (bool_decide_eq_true_2 _ Hplan).
  rewrite (proj2 (int_lt_float_spec _ _) Hexp). simpl.
  split; [done|]. intros i ->. simpl. by rewrite Hplan.
Qed.

Lemma verify_trial_expired_keeps_stored_plan_witness :
  verify (sample_world "t" 1800000000 (StripeOk "cus_1") (StripeOk "active") ValueError)
         (Some "mk_carol") sample_db =
    (Reply 200 {[ "valid" := JBool true; "plan" := JStr "trial_expired";
                  "max_workers" := JInt 1; "trial_expired" := JBool true ]}, sample_db).
Proof.
  apply (verify_trial_expired_keeps_stored_plan
           (sample_world "t" 1800000000 (StripeOk "cus_1") (StripeOk "active") ValueError)
           sample_db carol).
  - compute_done.
  - compute_done.
  - reflexivity.
  - reflexivity.
  - intros (sid & status & _ & _ & Hr & Hs). simpl in Hr. congruence.
Defined.

(** C8. For an account with a stored subscription id, when the Stripe
    status query raises StripeError [verify] does not fail: it answers 200
    from the stored row ([trial_expired]/1 if the stored plan is [trial]
    and the expiry is past, the stored plan and [max_workers] otherwise),
    and the table is unchanged. *)
Theorem verify_falls_back_to_cache w db u sid msg :
  db_ok db -> u ∈ db ->
  stripe_subscription_id u = Some sid ->
  Subscription_retrieve w sid = StripeError msg ->
  let r := verify w (Some (api_key u)) db in
  r.2 = db /\
  (plan u = "trial" /\ (inject_Z (expires_at u) < now_timestamp w)%Q ->
   r.1 = Reply 200 {[ "valid" := JBool true; "plan" := JStr "trial_expired";
                      "max_workers" := JInt 1; "trial_expired" := JBool true ]}) /\
  (¬ (plan u = "trial" /\ (inject_Z (expires_at u) < now_timestamp w)%Q) ->
   r.1 = Reply 200 {[ "valid" := JBool true; "plan" := JStr (plan u);
                      "max_workers" := JInt (max_workers u);
                      "email" := JStr (email u) ]}).
Proof.
  intros Hok Hin Hsub Hfail r. subst r.
  rewrite (verify_from_cache w db u Hok Hin).
  - simpl. split; [done|]. split.
    + intros [Hplan Hexp]. rewrite (bool_decide_eq_true_2 _ Hplan).
      by rewrite (proj2 (int_lt_float_spec _ _) Hexp).
    + intros Hnot. destruct (bool_decide _ && _) eqn:E; [|done].
      apply andb_prop in E as [Hplan Hexp]. destruct Hnot. split.
      * by apply bool_decide_eq_true_1 in Hplan.
      * by apply int_lt_float_spec.
  - intros (sid' & status & Hs & _ & Hr & _). congruence.
Qed.

Lemma verify_falls_back_to_cache_witness :
  (verify (sample_world "t" 1700000000 (StripeOk "cus_1") (StripeError "api down") ValueError)
          (Some "mk_alice") sample_db).2 = sample_db.
Proof.
  apply (verify_falls_back_to_cache
           (sample_world "t" 1700000000 (StripeOk "cus_1") (StripeError "api down") ValueError)
           sample_db alice "sub_A" "api down").
  - compute_done.
  - compute_done.
  - reflexivity.
  - reflexivity.
Defined.

(** ** Registration *)

Lemma register_processor_error w e db msg :
  e ≠ EmptyString ->
  Customer_create w e ("mk_" ++ token_urlsafe w) = StripeError msg ->
  register w (Some e) db =
    (Unhandled (TypeError "can only concatenate str (not StripeError) to str"), db).
Proof.
  intros He Hc. unfold register. destruct e as [|c e]; [done|]. by rewrite Hc.
Qed.

Lemma register_existing_reply w db u cid :
  db_ok db -> u ∈ db ->
  Customer_create w (email u) ("mk_" ++ token_urlsafe w) = StripeOk cid ->
  register w (Some (email u)) db =
    (Reply 200 {[ "api_key" := JStr (api_key u); "plan" := JStr (plan u);
                  "existing_user" := JBool true ]}, db).
Proof.
  intros (Hemails & _ & Hne & _) Hin Hc.
  assert (email u ≠ EmptyString) as He
    by (rewrite Forall_forall in Hne; by apply Hne).
  unfold register. destruct (email u) as [|c e] eqn:Ee; [done|].
  rewrite <- Ee in Hc |- *.
  rewrite Hc. erewrite sql_insert_exists; [|exact Hin|reflexivity].
  by rewrite (fetchone_email db u Hemails Hin).
Qed.

(** C2, as stated, fails: when Stripe refuses the customer-creation call
    that [register] makes before it looks at the table, the answer for an
    existing email carries no [api_key]. *)
Lemma register_existing_stripe_down_counterexample :
  ¬ spec_register_idempotent
      (sample_world "t" 1700000000 (StripeError "api down") (StripeOk "active") ValueError)
      sample_db alice.
Proof.
  intros H. destruct H as [_ H]; [compute_done|compute_done|].
  vm_compute in H. discriminate H.
Qed.

(** C2, amended. For an email that has an account, calling [register]
    again leaves the table unchanged, and, when the customer-creation
    call to the payment processor succeeds, answers with the stored
    [api_key] (and stored plan, flagged [existing_user]). *)
Theorem register_existing_email_idempotent w db u :
  db_ok db -> u ∈ db ->
  (register w (Some (email u)) db).2 = db /\
  (forall cid,
     Customer_create w (email u) ("mk_" ++ token_urlsafe w) = StripeOk cid ->
     (register w (Some (email u)) db).1 =
       Reply 200 {[ "api_key" := JStr (api_key u); "plan" := JStr (plan u);
                    "existing_user" := JBool true ]}).
Proof.
  intros Hok Hin. split.
  - destruct (register_db_cases w (Some (email u)) db)
      as [Hsame|(v & [= Hv] & _ & _ & _ & Hins)]; [done|].
    (* the INSERT cannot have succeeded: the email is taken *)
    by rewrite (sql_insert_exists v u db Hin) in Hins.
  - intros cid Hc. by rewrite (register_existing_reply w db u cid Hok Hin Hc).
Qed.

Lemma register_existing_email_idempotent_witness :
  (register (sample_world "t" 1700000000 (StripeOk "cus_9") (StripeOk "active") ValueError)
            (Some "alice@example.com") sample_db).1 =
    Reply 200 {[ "api_key" := JStr "mk_alice"; "plan" := JStr "pro";
                 "existing_user" := JBool true ]}.
Proof.
  apply (proj2 (register_existing_email_idempotent
           (sample_world "t" 1700000000 (StripeOk "cus_9") (StripeOk "active") ValueError)
           sample_db alice ltac:(compute_done) ltac:(compute_done)) "cus_9").
  reflexivity.
Defined.

(** Registering an email twice: whenever the first call answers 200 and
    the processor accepts the second call, the second call answers 200
    with the [api_key] of the first and writes nothing. *)
Lemma register_twice_same_key w1 w2 e db body1 cid2 :
  db_ok db ->
  (register w1 (Some e) db).1 = Reply 200 body1 ->
  Customer_create w2 e ("mk_" ++ token_urlsafe w2) = StripeOk cid2 ->
  let db1 := (register w1 (Some e) db).2 in
  exists body2,
    register w2 (Some e) db1 = (Reply 200 body2, db1) /\
    body2 !! "api_key" = body1 !! "api_key".
Proof.
  intros Hok H1 H2 db1.
  assert (db_ok db1) as Hok1 by apply (handle_db_ok w1 (POST_auth_register (Some e)) db Hok).
  assert (exists u, u ∈ db1 /\ email u = e /\
                    body1 !! "api_key" = Some (JStr (api_key u))) as (u & Hin & <- & Hb).
  { subst db1. revert H1. unfold register.
    destruct e as [|c e]; [done|].
    destruct (Customer_create w1 _ _) as [cid|msg]; [|done].
    destruct (sql_insert _ db) as [db'|] eqn:Ei.
    - simpl. intros [= <-]. unfold sql_insert in Ei. case_decide; [done|].
      injection Ei as <-. eexists. split; [apply elem_of_app; right; left|]. done.
    - destruct (fetchone _) as [u|] eqn:Ef; [|done].
      simpl. intros [= <-]. apply fetchone_some in Ef as [Hin He].
      exists u. done. }
  eexists. split.
  - apply (register_existing_reply w2 db1 u cid2 Hok1 Hin H2).
  - by rewrite Hb.
Qed.

(** C7. At a processor error [register] creates no row and the client
    receives a 500, but the handler raises TypeError while building the
    error body (a str is concatenated with the exception object), so the
    response is the framework's generic one and carries no JSON body and
    no processor message. *)
Theorem register_processor_error_unhandled w e db msg :
  e ≠ EmptyString ->
  Customer_create w e ("mk_" ++ token_urlsafe w) = StripeError msg ->
  let r := register w (Some e) db in
  r.2 = db /\ http_status r.1 = 500 /\ json_body r.1 = None /\
  r.1 = Unhandled (TypeError "can only concatenate str (not StripeError) to str").
Proof.
  intros He Hc r. subst r. by rewrite (register_processor_error w e db msg He Hc).
Qed.

Lemma register_processor_error_unhandled_witness :
  json_body
    (register (sample_world "t" 1700000000 (StripeError "Invalid email address: dave")
                            (StripeOk "active") ValueError)
              (Some "dave") sample_db).1 = None.
Proof.
  apply (register_processor_error_unhandled
           (sample_world "t" 1700000000 (StripeError "Invalid email address: dave")
                         (StripeOk "active") ValueError)
           "dave" sample_db "Invalid email address: dave"); [discriminate|reflexivity].
Defined.

(** ** The worker-limit invariant *)

(** C9. Every operation of the service keeps every account's
    [max_workers] at 1 or 8: whatever the request and whatever the outside
    world answers, if the table satisfies the invariant before the request
    it satisfies it afterwards. *)
Theorem every_operation_keeps_workers_one_or_eight w r db :
  workers_ok db -> workers_ok (handle w r db).2.
Proof.
  intros Hdb. destruct r as [|e|k|k|k|pl sg|]; simpl.
  - done.
  - destruct (register_db_cases w e db) as [->|(u & _ & ? & ? & ? & Hi)]; [done|].
    by eapply sql_insert_workers_ok.
  - destruct (verify_db_cases w k db) as [->|[key ->]]; [done|].
    apply sql_update_workers_ok; [|done]. intros u. by left.
  - by rewrite (proj1 (proj2 (read_only_handlers w k db))).
  - by rewrite (proj1 (proj2 (proj2 (read_only_handlers w k db)))).
  - unfold webhook. case_match; simpl; try done. by apply apply_event_workers_ok.
  - done.
Qed.

Lemma every_operation_keeps_workers_one_or_eight_witness :
  workers_ok
    (handle (sample_world "t" 1700000000 (StripeOk "cus_1") (StripeOk "active")
               (Constructed (checkout_event {[ "api_key" := "mk_bob" ]} (Some "sub_B"))))
            (POST_billing_webhook "{}" (Some "t=1,v1=00")) sample_db).2.
Proof.
  apply (every_operation_keeps_workers_one_or_eight
           (sample_world "t" 1700000000 (StripeOk "cus_1") (StripeOk "active")
               (Constructed (checkout_event {[ "api_key" := "mk_bob" ]} (Some "sub_B"))))
           (POST_billing_webhook "{}" (Some "t=1,v1=00")) sample_db).
  compute_done.
Defined.

(** ** The model at work *)

Example py_int_truncates :
  py_int (7 # 2) = 3 /\ py_int (- 7 # 2) = -3 /\ py_int (inject_Z 1700604800) = 1700604800.
Proof. by vm_compute. Qed.

Example register_new_account :
  register (sample_world "dave" 1700000000 (StripeOk "cus_D") (StripeOk "active") ValueError)
           (Some "dave@example.com") sample_db =
    (Reply 200 {[ "api_key" := JStr "mk_dave"; "plan" := JStr "trial";
                  "trial_ends" := JInt 1700604800 ]},
     [alice; bob; carol;
      mkUser "dave@example.com" "mk_dave" "cus_D" None "trial" 1700604800 1 1700000000]).
Proof. by vm_compute. Qed.

Example verify_downgrades_inactive_subscription :
  verify (sample_world "t" 1700000000 (StripeOk "cus_1") (StripeOk "past_due") ValueError)
         (Some "mk_alice") sample_db =
    (Reply 200 {[ "valid" := JBool true; "plan" := JStr "free";
                  "max_workers" := JInt 1; "subscription_expired" := JBool true ]},
     [mkUser "alice@example.com" "mk_alice" "cus_A" (Some "sub_A") "free"
             1700604800 1 1700000000; bob; carol]).
Proof. by vm_compute. Qed.

Example checkout_completed_upgrades :
  webhook (sample_world "t" 1700000000 (StripeOk "cus_1") (StripeOk "active")
             (Constructed (checkout_event {[ "api_key" := "mk_bob" ]} (Some "sub_B"))))
          "{}" (Some "t=1,v1=00") sample_db =
    (Reply 200 {[ "received" := JBool true ]},
     [alice;
      mkUser "bob@example.com" "mk_bob" "cus_B" (Some "sub_B") "pro" 1700604800 8 1700000000;
      carol]).
Proof. by vm_compute. Qed.

Example admin_stats_empty_table :
  admin_stats init_db =
    (Reply 200 {[ "total_users" := JInt 0; "trial_users" := JNull;
                  "pro_users" := JNull; "free_users" := JNull ]}, init_db).
Proof. by vm_compute. Qed.

(** * Further properties of the handlers *)

(** ** More facts about the SQL primitives *)

Lemma fetchone_is_some (p : User -> Prop) {p_dec : forall u, Decision (p u)} db u :
  u ∈ db -> p u -> exists v, fetchone (sql_select p db) = Some v /\ v ∈ db /\ p v.
Proof.
  intros Hin Hp. destruct (fetchone (sql_select p db)) as [v|] eqn:E.
  - exists v. split; [done|]. by apply fetchone_some in E.
  - unfold fetchone, sql_select in E. apply head_None in E.
    assert (u ∈ filter p db) as Hu by (apply list_elem_of_filter; done).
    rewrite E in Hu. by apply elem_of_nil in Hu.
Qed.

Lemma sql_update_noop (p : User -> Prop) {p_dec : forall u, Decision (p u)} set db :
  (forall u, u ∈ db -> ¬ p u) -> sql_update p set db = db.
Proof.
  intros Hn. unfold sql_update. rewrite <- (list_fmap_id db) at 2.
  apply list_fmap_ext. intros i u Hi. simpl.
  rewrite decide_False; [done|]. apply Hn. by eapply list_elem_of_lookup_2.
Qed.

Lemma sql_update_idem (p : User -> Prop) {p_dec : forall u, Decision (p u)} set db :
  (forall u, set (set u) = set u) ->
  sql_update p set (sql_update p set db) = sql_update p set db.
Proof.
  intros Hs. unfold sql_update. rewrite <- list_fmap_compose.
  apply list_fmap_ext. intros i u _. simpl.
  destruct (decide (p u)) as [Hp|Hp].
  - case_decide; [apply Hs|done].
  - by rewrite decide_False.
Qed.

(** Under the UNIQUE constraint an UPDATE by key rewrites one row. *)
Lemma sql_update_unique_key set db i u :
  NoDup (api_key <$> db) -> db !! i = Some u ->
  sql_update (has_api_key (api_key u)) set db = <[i := set u]> db.
Proof.
  intros Hnd Hi. apply list_eq. intros j. rewrite sql_update_lookup.
  destruct (decide (i = j)) as [<-|Hij].
  - rewrite list_lookup_insert_eq by (by eapply lookup_lt_Some).
    rewrite Hi. simpl. by rewrite decide_True.
  - rewrite list_lookup_insert_ne by done.
    destruct (db !! j) as [v|] eqn:Hj; [|done]. simpl.
    rewrite decide_False; [done|]. unfold has_api_key. intros Heq.
    apply Hij. eapply NoDup_lookup; [exact Hnd| |];
      rewrite list_lookup_fmap; [rewrite Hi|rewrite Hj]; simpl; [done|by rewrite Heq].
Qed.

Lemma sql_insert_fresh u db :
  email u ∉ email <$> db -> api_key u ∉ api_key <$> db ->
  sql_insert u db = Some (db ++ [u])%list.
Proof. intros He Hk. unfold sql_insert. rewrite decide_False; [done|]. tauto. Qed.

(** ** Registration *)

(** X1. A new email, a token that gives a key no account holds, and a
    processor that accepts the customer: [register] appends one account on
    trial with one worker, no subscription, the processor's customer id and
    the truncated trial end, and answers with the new key and that end. *)
Theorem register_creates_trial_account w e db cid :
  let key := "mk_" ++ token_urlsafe w in
  let expires := py_int (trial_end_timestamp w) in
  e ≠ EmptyString ->
  e ∉ email <$> db ->
  key ∉ api_key <$> db ->
  Customer_create w e key = StripeOk cid ->
  register w (Some e) db =
    (Reply 200 {[ "api_key" := JStr key; "plan" := JStr "trial";
                  "trial_ends" := JInt expires ]},
     (db ++ [mkUser e key cid None "trial" expires 1 (sqlite_now w)])%list).
Proof.
  intros key expires He Hnew Hfresh Hc. unfold register.
  destruct e as [|c e]; [done|]. fold key. rewrite Hc.
  by rewrite sql_insert_fresh.
Qed.

Lemma register_creates_trial_account_witness :
  register (sample_world "erin" 1700000000 (StripeOk "cus_E") (StripeOk "active") ValueError)
           (Some "erin@example.com") sample_db =
    (Reply 200 {[ "api_key" := JStr "mk_erin"; "plan" := JStr "trial";
                  "trial_ends" := JInt 1700604800 ]},
     [alice; bob; carol;
      mkUser "erin@example.com" "mk_erin" "cus_E" None "trial" 1700604800 1 1700000000]).
Proof.
  apply (register_creates_trial_account
           (sample_world "erin" 1700000000 (StripeOk "cus_E") (StripeOk "active") ValueError)
           "erin@example.com" sample_db "cus_E");
    [discriminate|compute_done|compute_done|reflexivity].
Defined.


(** X3. A new email whose freshly drawn key is already some account's
    key: the INSERT violates the UNIQUE constraint, the handler takes the
    existing-user branch, finds no row for the email and fails with
    TypeError; nothing is written. *)
Theorem register_key_collision_unhandled w e db cid :
  e ≠ EmptyString ->
  e ∉ email <$> db ->
  "mk_" ++ token_urlsafe w ∈ api_key <$> db ->
  Customer_create w e ("mk_" ++ token_urlsafe w) = StripeOk cid ->
  register w (Some e) db =
    (Unhandled (TypeError "'NoneType' object is not subscriptable"), db).
Proof.
  intros He Hnew Hdup Hc. unfold register. destruct e as [|c e]; [done|].
  rewrite Hc. unfold sql_insert. rewrite decide_True by (by right).
  rewrite fetchone_none; [done|]. intros u Hin Hu. apply Hnew.
  unfold has_email in Hu. rewrite <- Hu. by apply list_elem_of_fmap_2.
Qed.

Lemma register_key_collision_unhandled_witness :
  register (sample_world "bob" 1700000000 (StripeOk "cus_E") (StripeOk "active") ValueError)
           (Some "erin@example.com") sample_db =
    (Unhandled (TypeError "'NoneType' object is not subscriptable"), sample_db).
Proof.
  apply (register_key_collision_unhandled
           (sample_world "bob" 1700000000 (StripeOk "cus_E") (StripeOk "active") ValueError)
           "erin@example.com" sample_db "cus_E");
    [discriminate|compute_done|compute_done|reflexivity].
Defined.

(** X4. Registration followed by verification: the key [register] hands
    out for a new account is accepted by [verify] in any later world.
    While the clock has not passed the stored trial end the answer is the
    trial entitlement (one worker) for the registered email; once it has,
    the answer is [trial_expired].  Neither call of [verify] writes. *)
Theorem register_then_verify w w2 e db cid :
  let key := "mk_" ++ token_urlsafe w in
  let expires := py_int (trial_end_timestamp w) in
  let db1 := (register w (Some e) db).2 in
  db_ok db ->
  e ≠ EmptyString ->
  e ∉ email <$> db ->
  key ∉ api_key <$> db ->
  Customer_create w e key = StripeOk cid ->
  ((now_timestamp w2 <= inject_Z expires)%Q ->
   verify w2 (Some key) db1 =
     (Reply 200 {[ "valid" := JBool true; "plan" := JStr "trial";
                   "max_workers" := JInt 1; "email" := JStr e ]}, db1)) /\
  ((inject_Z expires < now_timestamp w2)%Q ->
   verify w2 (Some key) db1 =
     (Reply 200 {[ "valid" := JBool true; "plan" := JStr "trial_expired";
                   "max_workers" := JInt 1; "trial_expired" := JBool true ]}, db1)).
Proof.
  intros key expires db1 Hok He Hnew Hfresh Hc.
  set (u := mkUser e key cid None "trial" expires 1 (sqlite_now w)).
  assert (sql_insert u db = Some (db ++ [u])%list) as Hins by by apply sql_insert_fresh.
  assert (db1 = (db ++ [u])%list) as ->.
  { subst db1. unfold register. destruct e as [|c e]; [done|].
    fold key. rewrite Hc. fold expires. fold u. by rewrite Hins. }
  assert (db_ok (db ++ [u])) as Hok1 by by eapply (sql_insert_db_ok u db).
  assert (u ∈ (db ++ [u])%list) as Hin by (apply elem_of_app; right; left).
  assert (¬ reports_inactive w2 u) as Hact by (by intros (? & ? & ? & _)).
  pose proof (verify_from_cache w2 _ u Hok1 Hin Hact) as Hv.
  change (api_key u) with key in Hv. change (plan u) with "trial" in Hv.
  change (expires_at u) with expires in Hv.
  rewrite (bool_decide_eq_true_2 ("trial" = "trial") eq_refl) in Hv.
  rewrite Hv. split; intros Hclock.
  - destruct (int_lt_float expires (now_timestamp w2)) eqn:E; [|done].
    apply int_lt_float_spec in E. by destruct (Qlt_not_le _ _ E).
  - by rewrite (proj2 (int_lt_float_spec _ _) Hclock).
Qed.

Lemma register_then_verify_witness :
  verify (sample_world "zed" 1700604800 (StripeOk "cus_Z") (StripeOk "active") ValueError)
         (Some "mk_erin")
         (register (sample_world "erin" 1700000000 (StripeOk "cus_E") (StripeOk "active")
                                 ValueError)
                   (Some "erin@example.com") sample_db).2 =
    (Reply 200 {[ "valid" := JBool true; "plan" := JStr "trial";
                  "max_workers" := JInt 1; "email" := JStr "erin@example.com" ]},
     (register (sample_world "erin" 1700000000 (StripeOk "cus_E") (StripeOk "active")
                             ValueError)
               (Some "erin@example.com") sample_db).2).
Proof.
  apply (register_then_verify
           (sample_world "erin" 1700000000 (StripeOk "cus_E") (StripeOk "active") ValueError)
           (sample_world "zed" 1700604800 (StripeOk "cus_Z") (StripeOk "active") ValueError)
           "erin@example.com" sample_db "cus_E");
    [compute_done|discriminate|compute_done|compute_done|reflexivity|].
  by vm_compute.
Defined.

(** ** Entitlement resolution *)

(** X5. [verify] answers 200 exactly when the header carries a non-empty
    key that some account holds, whatever Stripe and the clock say. *)
Theorem verify_ok_iff_known_key w hdr db :
  http_status (verify w hdr db).1 = 200 <-> known_key hdr db.
Proof.
  unfold verify, known_key. split.
  - destruct hdr as [[|c key]|]; [done| |done].
    destruct (fetchone _) as [v|] eqn:E; [|done]. intros _.
    apply fetchone_some in E as [Hin Hk]. by exists (String c key), v.
  - intros (key & u & -> & Hne & Hin & Hk). destruct key as [|c key]; [done|].
    destruct (fetchone_is_some (has_api_key (String c key)) db u Hin Hk)
      as (v & -> & _ & _).
    unfold trial_expired_reply, cached_reply.
    repeat (case_match; simpl; try done).
Qed.

(** X6. The downgrade of [verify]: when the account's subscription is
    looked up and Stripe reports any status other than [active], the
    answer is free with one worker, flagged [subscription_expired], and the
    account's row, and no other, is rewritten to plan [free] with one
    worker; its subscription id stays. *)
Theorem verify_downgrades_inactive w db i u sid status :
  db_ok db ->
  db !! i = Some u ->
  stripe_subscription_id u = Some sid -> sid ≠ EmptyString ->
  Subscription_retrieve w sid = StripeOk status -> status ≠ "active" ->
  verify w (Some (api_key u)) db =
    (Reply 200 {[ "valid" := JBool true; "plan" := JStr "free";
                  "max_workers" := JInt 1; "subscription_expired" := JBool true ]},
     <[i := mkUser (email u) (api_key u) (stripe_customer_id u) (Some sid)
                   "free" (expires_at u) 1 (created_at u)]> db).
Proof.
  intros (_ & Hkeys & _ & Hne) Hi Hsub Hsid Hr Hst.
  assert (u ∈ db) as Hin by by eapply list_elem_of_lookup_2.
  assert (api_key u ≠ EmptyString) as Hk
    by (rewrite Forall_forall in Hne; by apply Hne).
  unfold verify. destruct (api_key u) as [|c key] eqn:Ek; [done|]. rewrite <- Ek.
  rewrite (fetchone_api_key db u Hkeys Hin), Hsub.
  destruct sid as [|c' sid]; [done|]. rewrite Hr.
  rewrite (bool_decide_eq_true_2 _ Hst).
  rewrite (sql_update_unique_key _ db i u Hkeys Hi).
  unfold set_plan_workers. by rewrite Hsub.
Qed.

Lemma verify_downgrades_inactive_witness :
  verify (sample_world "t" 1700000000 (StripeOk "cus_1") (StripeOk "past_due") ValueError)
         (Some "mk_alice") sample_db =
    (Reply 200 {[ "valid" := JBool true; "plan" := JStr "free";
                  "max_workers" := JInt 1; "subscription_expired" := JBool true ]},
     [mkUser "alice@example.com" "mk_alice" "cus_A" (Some "sub_A") "free"
             1700604800 1 1700000000; bob; carol]).
Proof.
  apply (verify_downgrades_inactive
           (sample_world "t" 1700000000 (StripeOk "cus_1") (StripeOk "past_due") ValueError)
           sample_db 0%nat alice "sub_A" "past_due");
    [compute_done|reflexivity|reflexivity|discriminate|reflexivity|discriminate].
Defined.

(** X7. [verify] writes only in that case: if the table after the call
    differs from the table before, the header carries the key of an
    account whose subscription Stripe reported as not active. *)
Theorem verify_writes_only_on_inactive w hdr db :
  (verify w hdr db).2 ≠ db ->
  exists u, u ∈ db /\ hdr = Some (api_key u) /\ reports_inactive w u.
Proof.
  unfold verify. destruct hdr as [[|c key]|]; [done| |done].
  destruct (fetchone _) as [u|] eqn:E; [|done].
  apply fetchone_some in E as [Hin Hk]. unfold has_api_key in Hk.
  destruct (stripe_subscription_id u) as [[|c' sid]|] eqn:Es;
    [by case_match| |by case_match].
  destruct (Subscription_retrieve w (String c' sid)) as [status|msg] eqn:Er;
    [|by case_match].
  case_bool_decide as Hst; [|by case_match].
  intros _. exists u. repeat split; [done|by rewrite Hk|].
  by exists (String c' sid), status.
Qed.

Lemma verify_writes_only_on_inactive_witness :
  exists u, u ∈ sample_db /\ Some "mk_alice" = Some (api_key u) /\
            reports_inactive
              (sample_world "t" 1700000000 (StripeOk "cus_1") (StripeOk "past_due") ValueError)
              u.
Proof.
  apply (verify_writes_only_on_inactive
           (sample_world "t" 1700000000 (StripeOk "cus_1") (StripeOk "past_due") ValueError)
           (Some "mk_alice") sample_db).
  by vm_compute.
Defined.

Lemma verify_downgrade_eq w key db u sid status :
  key ≠ EmptyString ->
  fetchone (sql_select (has_api_key key) db) = Some u ->
  stripe_subscription_id u = Some sid -> sid ≠ EmptyString ->
  Subscription_retrieve w sid = StripeOk status -> status ≠ "active" ->
  verify w (Some key) db =
    (Reply 200 {[ "valid" := JBool true; "plan" := JStr "free";
                  "max_workers" := JInt 1; "subscription_expired" := JBool true ]},
     sql_update (has_api_key key) (set_plan_workers "free" 1) db).
Proof.
  intros Hk Hf Hsub Hsid Hr Hst. unfold verify.
  destruct key as [|c key]; [done|]. rewrite Hf, Hsub.
  destruct sid as [|c' sid]; [done|]. rewrite Hr.
  by rewrite (bool_decide_eq_true_2 _ Hst).
Qed.

Lemma verify_write_case w hdr db :
  (verify w hdr db).2 ≠ db ->
  exists key u sid status,
    hdr = Some key /\ key ≠ EmptyString /\
    fetchone (sql_select (has_api_key key) db) = Some u /\
    stripe_subscription_id u = Some sid /\ sid ≠ EmptyString /\
    Subscription_retrieve w sid = StripeOk status /\ status ≠ "active".
Proof.
  unfold verify. destruct hdr as [[|c key]|]; [done| |done].
  destruct (fetchone _) as [u|] eqn:E; [|done].
  destruct (stripe_subscription_id u) as [[|c' sid]|] eqn:Es;
    [by case_match| |by case_match].
  destruct (Subscription_retrieve w (String c' sid)) as [status|msg] eqn:Er;
    [|by case_match].
  case_bool_decide as Hst; [|by case_match].
  intros _. by exists (String c key), u, (String c' sid), status.
Qed.

(** A SET clause that keeps the key keeps the rows a SELECT by key finds. *)
Lemma sql_select_after_update key set db :
  keeps_keys set ->
  sql_select (has_api_key key) (sql_update (has_api_key key) set db) =
  (fun u => if decide (has_api_key key u) then set u else u)
    <$> sql_select (has_api_key key) db.
Proof.
  intros Hk. unfold sql_select, sql_update. induction db as [|v db IH]; [done|].
  rewrite fmap_cons, !filter_cons. destruct (decide (has_api_key key v)) as [Hv|Hv].
  - rewrite decide_True by (unfold has_api_key in *; by rewrite (proj2 (Hk v))).
    by rewrite fmap_cons, IH, decide_True.
  - by rewrite decide_False.
Qed.

(** X8. Asking twice is asking once: a second [verify] with the same
    header, in the same world, gives the answer of the first and leaves
    the table as the first left it. *)
Theorem verify_idempotent w hdr db :
  verify w hdr (verify w hdr db).2 = verify w hdr db.
Proof.
  destruct (decide ((verify w hdr db).2 = db)) as [Hsame|Hdiff].
  - by rewrite Hsame.
  - destruct (verify_write_case w hdr db Hdiff)
      as (key & u & sid & status & -> & Hk & Hf & Hsub & Hsid & Hr & Hst).
    rewrite (verify_downgrade_eq w key db u sid status) by done. cbn [snd].
    rewrite (verify_downgrade_eq w key _ (set_plan_workers "free" 1 u) sid status);
      try done.
    + by rewrite sql_update_idem.
    + unfold fetchone in *.
      rewrite sql_select_after_update by apply keeps_keys_plan_workers.
      destruct (sql_select (has_api_key key) db) as [|v l] eqn:E; [done|].
      simpl in Hf. injection Hf as ->. simpl.
      rewrite decide_True; [done|].
      assert (u ∈ sql_select (has_api_key key) db) as Hu by (rewrite E; left).
      unfold sql_select in Hu. by apply list_elem_of_filter in Hu as [? _].
Qed.

(** X9. The trial boundary: an account on trial whose expiry is not
    strictly before the clock (it may equal it) is still answered as
    [trial], with its stored worker limit and email, and nothing is
    written. *)
Theorem verify_trial_not_expired w db u :
  db_ok db -> u ∈ db ->
  plan u = "trial" ->
  (now_timestamp w <= inject_Z (expires_at u))%Q ->
  ¬ reports_inactive w u ->
  verify w (Some (api_key u)) db =
    (Reply 200 {[ "valid" := JBool true; "plan" := JStr "trial";
                  "max_workers" := JInt (max_workers u);
                  "email" := JStr (email u) ]}, db).
Proof.
  intros Hok Hin Hplan Hclock Hact.
  rewrite (verify_from_cache w db u Hok Hin Hact).
  destruct (int_lt_float _ _) eqn:E.
  - apply int_lt_float_spec in E. by destruct (Qlt_not_le _ _ E).
  - rewrite andb_false_r. unfold cached_reply. by rewrite Hplan.
Qed.

Lemma verify_trial_not_expired_witness :
  verify (sample_world "t" 1700604800 (StripeOk "cus_1") (StripeOk "active") ValueError)
         (Some "mk_bob") sample_db =
    (Reply 200 {[ "valid" := JBool true; "plan" := JStr "trial";
                  "max_workers" := JInt 1; "email" := JStr "bob@example.com" ]},
     sample_db).
Proof.
  apply (verify_trial_not_expired
           (sample_world "t" 1700604800 (StripeOk "cus_1") (StripeOk "active") ValueError)
           sample_db bob); [compute_done|compute_done|reflexivity|by vm_compute|].
  by intros (sid & status & Hs & _).
Defined.

(** ** Webhook reconciliation, continued *)

(** X10. A verified [checkout.session.completed] event whose metadata
    names a key: every account holding that key becomes pro with eight
    workers and the session's subscription id, every other account is left
    as it was, and the event is acknowledged. *)
Theorem checkout_completed_upgrades_account w payload sig_header db ev key :
  construct_event w payload sig_header (STRIPE_WEBHOOK_SECRET w) = Constructed ev ->
  ev_type ev = "checkout.session.completed" ->
  obj_metadata (ev_object ev) !! "api_key" = Some key ->
  key ≠ EmptyString ->
  (webhook w payload sig_header db).1 = Reply 200 {[ "received" := JBool true ]} /\
  forall i u,
    db !! i = Some u ->
    (webhook w payload sig_header db).2 !! i =
      Some (if decide (api_key u = key)
            then mkUser (email u) (api_key u) (stripe_customer_id u)
                        (obj_subscription (ev_object ev)) "pro" (expires_at u) 8
                        (created_at u)
            else u).
Proof.
  intros Hev Hty Hmd Hk. unfold webhook. rewrite Hev. simpl. split; [done|].
  intros i u Hi. unfold apply_event. rewrite bool_decide_eq_true_2 by done.
  rewrite Hmd. destruct key as [|c key]; [done|].
  rewrite sql_update_lookup, Hi. simpl. unfold has_api_key.
  by destruct (decide (api_key u = String c key)).
Qed.

Lemma checkout_completed_upgrades_account_witness :
  (webhook (sample_world "t" 1700000000 (StripeOk "cus_1") (StripeOk "active")
              (Constructed (checkout_event {[ "api_key" := "mk_bob" ]} (Some "sub_B"))))
           "{}" (Some "t=1,v1=00") sample_db).2 !! 1%nat =
    Some (mkUser "bob@example.com" "mk_bob" "cus_B" (Some "sub_B") "pro"
                 1700604800 8 1700000000).
Proof.
  refine (proj2 (checkout_completed_upgrades_account
           (sample_world "t" 1700000000 (StripeOk "cus_1") (StripeOk "active")
              (Constructed (checkout_event {[ "api_key" := "mk_bob" ]} (Some "sub_B"))))
           "{}" (Some "t=1,v1=00") sample_db
           (checkout_event {[ "api_key" := "mk_bob" ]} (Some "sub_B")) "mk_bob"
           eq_refl eq_refl _ _) 1%nat bob eq_refl);
    [by vm_compute|discriminate].
Defined.

(** X11. Replaying a webhook delivery changes nothing more: the handler
    run a second time on the table the first run left gives the same
    answer and the same table. *)
Theorem webhook_replay_idempotent w payload sig_header db :
  webhook w payload sig_header (webhook w payload sig_header db).2 =
  webhook w payload sig_header db.
Proof.
  unfold webhook. destruct (construct_event _ _ _ _) as [ev| |]; [|done..].
  simpl. f_equal. unfold apply_event.
  repeat case_bool_decide; repeat case_match; try done;
    by apply sql_update_idem.
Qed.

(** X12. A verified event that matches no account is acknowledged and
    changes nothing: an event of a type the handler does not know, a
    checkout whose key (if any) no account holds, a subscription update
    or deletion whose id no account stores. *)
Theorem webhook_unmatched_event_noop w payload sig_header db ev :
  construct_event w payload sig_header (STRIPE_WEBHOOK_SECRET w) = Constructed ev ->
  (ev_type ev = "checkout.session.completed" ->
   forall key, obj_metadata (ev_object ev) !! "api_key" = Some key ->
               forall u, u ∈ db -> api_key u ≠ key) ->
  (ev_type ev = "customer.subscription.updated" \/
   ev_type ev = "customer.subscription.deleted" ->
   forall u, u ∈ db -> stripe_subscription_id u ≠ Some (obj_id (ev_object ev))) ->
  webhook w payload sig_header db = (Reply 200 {[ "received" := JBool true ]}, db).
Proof.
  intros Hev Hco Hsub. unfold webhook. rewrite Hev. f_equal. unfold apply_event.
  case_bool_decide as H1.
  - destruct (obj_metadata _ !! "api_key") as [[|c key]|] eqn:Hmd; [done| |done].
    apply sql_update_noop. intros u Hin. by apply (Hco H1 _ eq_refl).
  - case_bool_decide as H2; [|case_bool_decide as H3; [|done]].
    + repeat case_bool_decide; try done; apply sql_update_noop; intros u Hin;
        apply Hsub; auto.
    + apply sql_update_noop. intros u Hin. apply Hsub; auto.
Qed.

Lemma webhook_unmatched_event_noop_witness :
  webhook (sample_world "t" 1700000000 (StripeOk "cus_1") (StripeOk "active")
             (Constructed (subscription_event "customer.subscription.deleted"
                                              "sub_gone" "canceled")))
          "{}" (Some "t=1,v1=00") sample_db =
    (Reply 200 {[ "received" := JBool true ]}, sample_db).
Proof.
  apply (webhook_unmatched_event_noop
           (sample_world "t" 1700000000 (StripeOk "cus_1") (StripeOk "active")
              (Constructed (subscription_event "customer.subscription.deleted"
                                               "sub_gone" "canceled")))
           "{}" (Some "t=1,v1=00") sample_db
           (subscription_event "customer.subscription.deleted" "sub_gone" "canceled")).
  - reflexivity.
  - discriminate.
  - intros _ u Hu. apply list_elem_of_In in Hu. simpl in Hu.
    destruct Hu as [<-|[<-|[<-|[]]]]; discriminate.
Defined.

(** X13. A subscription update or deletion leaves alone every account
    that stores another subscription id, or none. *)
Theorem subscription_event_frame w payload sig_header db ev i u :
  construct_event w payload sig_header (STRIPE_WEBHOOK_SECRET w) = Constructed ev ->
  ev_type ev = "customer.subscription.updated" \/
  ev_type ev = "customer.subscription.deleted" ->
  db !! i = Some u ->
  stripe_subscription_id u ≠ Some (obj_id (ev_object ev)) ->
  (webhook w payload sig_header db).2 !! i = Some u.
Proof.
  intros Hev Hty Hi Hsub. unfold webhook. rewrite Hev. simpl. unfold apply_event.
  destruct Hty as [-> | ->]; simpl;
    repeat case_bool_decide; try done;
    rewrite sql_update_lookup, Hi; simpl; by rewrite decide_False.
Qed.

Lemma subscription_event_frame_witness :
  (webhook (sample_world "t" 1700000000 (StripeOk "cus_1") (StripeOk "active")
              (Constructed (subscription_event "customer.subscription.deleted"
                                               "sub_A" "canceled")))
           "{}" (Some "t=1,v1=00") sample_db).2 !! 2%nat = Some carol.
Proof.
  apply (subscription_event_frame
           (sample_world "t" 1700000000 (StripeOk "cus_1") (StripeOk "active")
              (Constructed (subscription_event "customer.subscription.deleted"
                                               "sub_A" "canceled")))
           "{}" (Some "t=1,v1=00") sample_db
           (subscription_event "customer.subscription.deleted" "sub_A" "canceled")
           2%nat carol); [reflexivity|by right|reflexivity|discriminate].
Defined.

(** X23. Subscribe, then cancel: after a checkout for an account's key
    with subscription [sid] and a later deletion of [sid], the account is
    on plan [free] with one worker and no subscription id. *)
Theorem checkout_then_deleted w1 w2 p1 s1 p2 s2 db ev1 ev2 sid i u :
  construct_event w1 p1 s1 (STRIPE_WEBHOOK_SECRET w1) = Constructed ev1 ->
  ev_type ev1 = "checkout.session.completed" ->
  obj_metadata (ev_object ev1) !! "api_key" = Some (api_key u) ->
  api_key u ≠ EmptyString ->
  obj_subscription (ev_object ev1) = Some sid ->
  construct_event w2 p2 s2 (STRIPE_WEBHOOK_SECRET w2) = Constructed ev2 ->
  ev_type ev2 = "customer.subscription.deleted" ->
  obj_id (ev_object ev2) = sid ->
  db !! i = Some u ->
  (webhook w2 p2 s2 (webhook w1 p1 s1 db).2).2 !! i =
    Some (mkUser (email u) (api_key u) (stripe_customer_id u) None
                 "free" (expires_at u) 1 (created_at u)).
Proof.
  intros Hev1 Hty1 Hmd Hk Hs1 Hev2 Hty2 Hid Hi.
  unfold webhook. rewrite Hev1, Hev2. simpl. unfold apply_event.
  rewrite Hty1, Hty2, Hmd, Hs1, Hid. simpl.
  destruct (api_key u) as [|c key] eqn:Ek; [done|]. rewrite <- Ek.
  rewrite !sql_update_lookup, Hi. simpl.
  rewrite (decide_True (P := has_api_key (api_key u) u)) by reflexivity.
  by rewrite decide_True by reflexivity.
Qed.

Lemma checkout_then_deleted_witness :
  (webhook (sample_world "t" 1700000200 (StripeOk "cus_1") (StripeOk "active")
              (Constructed (subscription_event "customer.subscription.deleted"
                                               "sub_B" "canceled")))
           "{}" (Some "t=2,v1=00")
           (webhook (sample_world "t" 1700000100 (StripeOk "cus_1") (StripeOk "active")
                       (Constructed (checkout_event {[ "api_key" := "mk_bob" ]}
                                                    (Some "sub_B"))))
                    "{}" (Some "t=1,v1=00") sample_db).2).2 !! 1%nat =
    Some (mkUser "bob@example.com" "mk_bob" "cus_B" None "free" 1700604800 1 1700000000).
Proof.
  refine (checkout_then_deleted
            (sample_world "t" 1700000100 (StripeOk "cus_1") (StripeOk "active")
               (Constructed (checkout_event {[ "api_key" := "mk_bob" ]} (Some "sub_B"))))
            (sample_world "t" 1700000200 (StripeOk "cus_1") (StripeOk "active")
               (Constructed (subscription_event "customer.subscription.deleted"
                                                "sub_B" "canceled")))
            "{}" (Some "t=1,v1=00") "{}" (Some "t=2,v1=00") sample_db
            (checkout_event {[ "api_key" := "mk_bob" ]} (Some "sub_B"))
            (subscription_event "customer.subscription.deleted" "sub_B" "canceled")
            "sub_B" 1%nat bob eq_refl eq_refl _ _ eq_refl eq_refl eq_refl eq_refl eq_refl);
    [by vm_compute|discriminate].
Defined.

(** ** What no request does *)

Lemma sql_update_same_identity (p : User -> Prop) {p_dec : forall u, Decision (p u)}
    set db i u :
  (forall v, same_identity v (set v)) ->
  db !! i = Some u ->
  exists u', sql_update p set db !! i = Some u' /\ same_identity u u'.
Proof.
  intros Hs Hi. rewrite sql_update_lookup, Hi. simpl.
  case_decide; eexists; (split; [done|]); [apply Hs|by repeat split].
Qed.

Lemma sql_insert_app u db db' : sql_insert u db = Some db' -> db' = (db ++ [u])%list.
Proof. unfold sql_insert. case_decide; [done|]. by intros [= <-]. Qed.

(** X14. No request deletes an account, moves it, or changes its email,
    key, customer id, expiry or creation time: whatever the request and
    the outside world, every row of the table is found at the same place
    afterwards with these five columns as they were. *)
Theorem handle_keeps_accounts w r db i u :
  db !! i = Some u ->
  exists u', (handle w r db).2 !! i = Some u' /\ same_identity u u'.
Proof.
  intros Hi.
  assert (exists u', db !! i = Some u' /\ same_identity u u') as Hsame
    by (exists u; by repeat split).
  destruct r as [|e|k|k|k|pl sg|]; simpl.
  - done.
  - destruct (register_db_cases w e db) as [->|(v & _ & _ & _ & _ & Hins)]; [done|].
    apply sql_insert_app in Hins as ->. exists u. split; [|by repeat split].
    by apply lookup_app_l_Some.
  - destruct (verify_db_cases w k db) as [->|[key ->]]; [done|].
    by apply sql_update_same_identity.
  - by rewrite (proj1 (proj2 (read_only_handlers w k db))).
  - by rewrite (proj1 (proj2 (proj2 (read_only_handlers w k db)))).
  - unfold webhook. case_match; simpl; try done.
    destruct (apply_event_cases ev db) as [->|(p & p_dec & set & -> & Hset)]; [done|].
    apply sql_update_same_identity; [|done].
    by destruct Hset as [->|[->|[->| ->]]].
  - done.
Qed.

Lemma handle_keeps_accounts_witness :
  exists u',
    (handle (sample_world "t" 1700000000 (StripeOk "cus_1") (StripeOk "past_due") ValueError)
            (GET_auth_verify (Some "mk_alice")) sample_db).2 !! 0%nat = Some u' /\
    same_identity alice u'.
Proof.
  apply (handle_keeps_accounts
           (sample_world "t" 1700000000 (StripeOk "cus_1") (StripeOk "past_due") ValueError)
           (GET_auth_verify (Some "mk_alice")) sample_db 0%nat alice).
  reflexivity.
Defined.

(** X15. The number of accounts changes in one way only: a [register]
    request for an email no account has adds exactly one. *)
Theorem handle_account_count w r db :
  length (handle w r db).2 = length db \/
  exists e, r = POST_auth_register (Some e) /\ (e ∉ email <$> db) /\
            length (handle w r db).2 = S (length db).
Proof.
  destruct r as [|e|k|k|k|pl sg|]; simpl.
  - by left.
  - destruct (register_db_cases w e db) as [->|(v & -> & _ & _ & _ & Hins)];
      [by left|]. right. exists (email v). split; [done|].
    pose proof Hins as Happ. apply sql_insert_app in Happ. rewrite Happ.
    split; [|rewrite length_app; simpl; lia].
    unfold sql_insert in Hins. case_decide; [done|]. tauto.
  - left. destruct (verify_db_cases w k db) as [->|[key ->]]; [done|].
    apply sql_update_length.
  - left. by rewrite (proj1 (proj2 (read_only_handlers w k db))).
  - left. by rewrite (proj1 (proj2 (proj2 (read_only_handlers w k db)))).
  - left. unfold webhook. case_match; simpl; try done.
    destruct (apply_event_cases ev db) as [->|(p & p_dec & set & -> & _)]; [done|].
    apply sql_update_length.
  - by left.
Qed.

(** ** Reachable tables *)

Lemma sql_update_accounts_ok (p : User -> Prop) {p_dec : forall u, Decision (p u)} set db :
  (forall u, account_ok u -> account_ok (set u)) ->
  Forall account_ok db -> Forall account_ok (sql_update p set db).
Proof.
  intros Hs Hdb. unfold sql_update. apply Forall_fmap.
  eapply Forall_impl; [exact Hdb|]. intros u Hu. simpl.
  case_decide; [by apply Hs|done].
Qed.

Lemma set_clause_account_ok ev set :
  set = set_plan_workers "pro" 8 \/ set = set_plan_workers "free" 1 \/
  set = set_plan_workers_sub "free" 1 None \/
  set = set_plan_workers_sub "pro" 8 (obj_subscription (ev_object ev)) ->
  forall u, account_ok u -> account_ok (set u).
Proof.
  intros [->|[->|[->| ->]]] u [_ Hk]; (split; [|exact Hk]); simpl; auto.
Qed.

(** [register] writes nothing, or appends a row of the trial shape. *)
Lemma register_row_cases w e db :
  (register w e db).2 = db \/
  exists u, account_ok u /\ (register w e db).2 = (db ++ [u])%list.
Proof.
  unfold register. repeat (case_match; simpl; eauto).
  right. match goal with H : sql_insert ?u _ = Some _ |- _ =>
    exists u; apply sql_insert_app in H as -> end.
  split; [|done]. split; [left; by repeat split|].
  simpl. by destruct (token_urlsafe w).
Qed.

(** X16. Every table the service can reach satisfies the schema
    constraints (one account per email, one per key, neither empty), and
    every account in it is on trial with one worker and no subscription
    id, or free with one worker, or pro with eight; its key starts with
    [mk_].  The stored plan is never [trial_expired]. *)
Theorem reachable_accounts_ok db :
  reachable db -> db_ok db /\ Forall account_ok db.
Proof.
  induction 1 as [|w r db Hr [IHok IH]].
  - split; [|constructor]. unfold db_ok, init_db. simpl. repeat split; constructor.
  - split; [by apply handle_db_ok|].
    destruct r as [|e|k|k|k|pl sg|]; simpl.
    + done.
    + destruct (register_row_cases w e db) as [->|(u & Hu & ->)]; [done|].
      apply Forall_app. split; [done|]. by apply Forall_singleton.
    + destruct (verify_db_cases w k db) as [->|[key ->]]; [done|].
      apply sql_update_accounts_ok; [|done].
      intros u [_ Hk]. split; [|exact Hk]. simpl. auto.
    + by rewrite (proj1 (proj2 (read_only_handlers w k db))).
    + by rewrite (proj1 (proj2 (proj2 (read_only_handlers w k db)))).
    + unfold webhook. case_match; simpl; try done.
      destruct (apply_event_cases ev db) as [->|(p & p_dec & set & -> & Hset)]; [done|].
      apply sql_update_accounts_ok; [|done]. by eapply set_clause_account_ok.
    + done.
Qed.

Lemma reachable_accounts_ok_witness :
  db_ok served_db /\ Forall account_ok served_db.
Proof.
  apply (reachable_accounts_ok served_db).
  unfold served_db. apply reachable_step. apply reachable_step. apply reachable_init.
Defined.

(** ** Statistics *)

Lemma plan_counts db :
  Forall account_ok db ->
  length db =
    (length (filter (fun u => plan u = "trial") db) +
     length (filter (fun u => plan u = "pro") db) +
     length (filter (fun u => plan u = "free") db))%nat.
Proof.
  induction 1 as [|u db [Hu _] _ IH]; [done|].
  rewrite !filter_cons. simpl.
  destruct Hu as [(Hp & _)|[(Hp & _)|(Hp & _)]]; rewrite Hp; simpl; lia.
Qed.

(** X17. On a non-empty table whose accounts have the shapes the
    handlers write (every reachable table), the four figures of
    [admin_stats] are numbers and the total is the sum of the trial, pro
    and free counts; the table is not written. *)
Theorem admin_stats_partition db :
  Forall account_ok db -> db ≠ [] ->
  exists t p f : nat,
    admin_stats db =
      (Reply 200 {[ "total_users" := JInt (Z.of_nat t + Z.of_nat p + Z.of_nat f);
                    "trial_users" := JInt (Z.of_nat t);
                    "pro_users" := JInt (Z.of_nat p);
                    "free_users" := JInt (Z.of_nat f) ]}, db).
Proof.
  intros Hok Hne.
  exists (length (filter (fun u => plan u = "trial") db)),
         (length (filter (fun u => plan u = "pro") db)),
         (length (filter (fun u => plan u = "free") db)).
  unfold admin_stats, sum_plan. rewrite (plan_counts db Hok) at 1.
  destruct db as [|u db]; [done|]. by rewrite !Nat2Z.inj_add.
Qed.

Lemma admin_stats_partition_witness :
  exists t p f : nat,
    admin_stats served_db =
      (Reply 200 {[ "total_users" := JInt (Z.of_nat t + Z.of_nat p + Z.of_nat f);
                    "trial_users" := JInt (Z.of_nat t);
                    "pro_users" := JInt (Z.of_nat p);
                    "free_users" := JInt (Z.of_nat f) ]}, served_db).
Proof.
  apply (admin_stats_partition served_db); [compute_done|by vm_compute].
Defined.

(** ** Billing *)

(** X18. [create_checkout] for a stored key opens the session for the
    account's stored customer id (passing the email only when that id is
    empty), the configured price and the key; the session's url comes back
    with 200, a processor error comes back as 500 with the processor's
    message; the table is not written either way. *)
Theorem create_checkout_outcome w db u :
  db_ok db -> u ∈ db ->
  let customer_email :=
    if decide (stripe_customer_id u = EmptyString) then Some (email u) else None in
  let session :=
    Session_create w (stripe_customer_id u) customer_email (STRIPE_PRICE_ID w) (api_key u) in
  (forall url, session = StripeOk url ->
     create_checkout w (Some (api_key u)) db = (Reply 200 {[ "url" := JStr url ]}, db)) /\
  (forall msg, session = StripeError msg ->
     create_checkout w (Some (api_key u)) db = (Reply 500 {[ "error" := JStr msg ]}, db)).
Proof.
  intros (_ & Hkeys & _ & Hne) Hin customer_email session.
  assert (api_key u ≠ EmptyString) as Hk
    by (rewrite Forall_forall in Hne; by apply Hne).
  assert (create_checkout w (Some (api_key u)) db =
          (match session with
           | StripeOk url => Reply 200 {[ "url" := JStr url ]}
           | StripeError msg => Reply 500 {[ "error" := JStr msg ]}
           end, db)) as ->.
  { unfold create_checkout. destruct (api_key u) as [|c key] eqn:Ek; [done|].
    rewrite <- Ek. rewrite (fetchone_api_key db u Hkeys Hin).
    subst session customer_email. simpl.
    destruct (stripe_customer_id u) as [|c' cid]; simpl; rewrite Ek; by case_match. }
  split; by intros ? ->.
Qed.

Lemma create_checkout_outcome_witness :
  create_checkout
    (mkWorld "whsec_test" "price_test" "t" 0 0 0 (fun _ _ => StripeOk "cus_1")
             (fun _ => StripeOk "active") (fun _ => StripeOk tt)
             (fun _ _ _ _ => StripeError "No such price: price_test")
             (fun _ _ _ => ValueError))
    (Some "mk_bob") sample_db =
    (Reply 500 {[ "error" := JStr "No such price: price_test" ]}, sample_db).
Proof.
  refine (proj2 (create_checkout_outcome
           (mkWorld "whsec_test" "price_test" "t" 0 0 0 (fun _ _ => StripeOk "cus_1")
                    (fun _ => StripeOk "active") (fun _ => StripeOk tt)
                    (fun _ _ _ _ => StripeError "No such price: price_test")
                    (fun _ _ _ => ValueError))
           sample_db bob _ _) "No such price: price_test" eq_refl);
    compute_done.
Defined.

(** X21. [create_checkout] answers 401 exactly when the header carries
    no key, an empty key, or a key no account holds. *)
Theorem create_checkout_unauthorized_iff w hdr db :
  http_status (create_checkout w hdr db).1 = 401 <-> ¬ known_key hdr db.
Proof.
  unfold create_checkout, known_key. split.
  - destruct hdr as [[|c key]|].
    + intros _ (? & ? & [= <-] & ? & _). done.
    + destruct (fetchone _) as [v|] eqn:E.
      * by case_match.
      * intros _ (k & u & [= <-] & _ & Hin & Hk).
        destruct (fetchone_is_some (has_api_key (String c key)) db u Hin Hk)
          as (v & Hv & _). congruence.
    + by intros _ (? & ? & ? & _).
  - intros Hunknown. destruct hdr as [[|c key]|]; [done| |done].
    destruct (fetchone _) as [v|] eqn:E; [|done].
    apply fetchone_some in E as [Hin Hk]. destruct Hunknown.
    by exists (String c key), v.
Qed.

(** X19. [cancel_subscription] for a stored key whose account has a
    subscription asks the processor to cancel that subscription at period
    end: success is answered 200, a processor error 500 with the
    processor's message.  The table is not written in either case: the
    account keeps its plan until a webhook event changes it. *)
Theorem cancel_subscription_outcome w db u sid :
  db_ok db -> u ∈ db ->
  stripe_subscription_id u = Some sid -> sid ≠ EmptyString ->
  (Subscription_modify w sid = StripeOk tt ->
     cancel_subscription w (Some (api_key u)) db =
       (Reply 200 {[ "success" := JBool true;
                     "message" := JStr "Subscription will cancel at period end" ]}, db)) /\
  (forall msg, Subscription_modify w sid = StripeError msg ->
     cancel_subscription w (Some (api_key u)) db =
       (Reply 500 {[ "error" := JStr msg ]}, db)).
Proof.
  intros (_ & Hkeys & _ & Hne) Hin Hsub Hsid.
  assert (api_key u ≠ EmptyString) as Hk
    by (rewrite Forall_forall in Hne; by apply Hne).
  unfold cancel_subscription. destruct (api_key u) as [|c key] eqn:Ek; [done|].
  rewrite <- Ek. rewrite (fetchone_api_key db u Hkeys Hin). simpl. rewrite Hsub.
  destruct sid as [|c' sid]; [done|]. split.
  - by intros ->.
  - by intros msg ->.
Qed.

Lemma cancel_subscription_outcome_witness :
  cancel_subscription
    (sample_world "t" 1700000000 (StripeOk "cus_1") (StripeOk "active") ValueError)
    (Some "mk_alice") sample_db =
    (Reply 200 {[ "success" := JBool true;
                  "message" := JStr "Subscription will cancel at period end" ]}, sample_db).
Proof.
  refine (proj1 (cancel_subscription_outcome
           (sample_world "t" 1700000000 (StripeOk "cus_1") (StripeOk "active") ValueError)
           sample_db alice "sub_A" _ _ eq_refl _) eq_refl);
    [compute_done|compute_done|discriminate].
Defined.

(** X20. With a non-empty key that no account holds, or whose accounts
    have no subscription id, [cancel_subscription] answers 400 with
    [No active subscription] (an unknown key is not answered 401 here)
    and writes nothing; the answer does not depend on the processor. *)
Theorem cancel_without_subscription w key db :
  key ≠ EmptyString ->
  (forall u, u ∈ db -> api_key u = key ->
             stripe_subscription_id u = None \/
             stripe_subscription_id u = Some EmptyString) ->
  cancel_subscription w (Some key) db =
    (Reply 400 {[ "error" := JStr "No active subscription" ]}, db).
Proof.
  intros Hk Hnone. unfold cancel_subscription. destruct key as [|c key]; [done|].
  destruct (fetchone _) as [u|] eqn:E; [|done]. simpl.
  apply fetchone_some in E as [Hin Hu].
  by destruct (Hnone u Hin Hu) as [-> | ->].
Qed.

Lemma cancel_without_subscription_witness :
  cancel_subscription
    (sample_world "t" 1700000000 (StripeOk "cus_1") (StripeOk "active") ValueError)
    (Some "mk_nobody") sample_db =
    (Reply 400 {[ "error" := JStr "No active subscription" ]}, sample_db).
Proof.
  apply (cancel_without_subscription
           (sample_world "t" 1700000000 (StripeOk "cus_1") (StripeOk "active") ValueError)
           "mk_nobody" sample_db); [discriminate|].
  intros u Hu. apply list_elem_of_In in Hu. simpl in Hu.
  destruct Hu as [<-|[<-|[<-|[]]]]; discriminate.
Defined.

(** ** Upgrade, then verify *)

(** X22. After a verified checkout for an account's key with
    subscription [sid], [verify] with that key answers pro with eight
    workers (also for an account whose trial had expired) as long as
    Stripe does not report [sid] in a status other than [active], and
    writes nothing. *)
Theorem checkout_then_verify w1 w2 payload sig_header db ev i u sid :
  db_ok db -> db !! i = Some u ->
  construct_event w1 payload sig_header (STRIPE_WEBHOOK_SECRET w1) = Constructed ev ->
  ev_type ev = "checkout.session.completed" ->
  obj_metadata (ev_object ev) !! "api_key" = Some (api_key u) ->
  obj_subscription (ev_object ev) = Some sid ->
  (forall status, Subscription_retrieve w2 sid = StripeOk status -> status = "active") ->
  let db' := (webhook w1 payload sig_header db).2 in
  verify w2 (Some (api_key u)) db' =
    (Reply 200 {[ "valid" := JBool true; "plan" := JStr "pro";
                  "max_workers" := JInt 8; "email" := JStr (email u) ]}, db').
Proof.
  intros Hok Hi Hev Hty Hmd Hsub Hactive db'.
  assert (api_key u ≠ EmptyString) as Hk.
  { destruct Hok as (_ & _ & _ & Hne). rewrite Forall_forall in Hne.
    apply Hne. by eapply list_elem_of_lookup_2. }
  set (u' := set_plan_workers_sub "pro" 8 (Some sid) u).
  assert (db' = sql_update (has_api_key (api_key u))
                           (set_plan_workers_sub "pro" 8 (Some sid)) db) as Hdb'.
  { subst db'. unfold webhook. rewrite Hev. simpl. unfold apply_event.
    rewrite bool_decide_eq_true_2 by done. rewrite Hmd, Hsub.
    by destruct (api_key u). }
  assert (db_ok db') as Hok'
    by (rewrite Hdb'; apply sql_update_db_ok;
        [apply keeps_keys_plan_workers_sub|done]).
  assert (u' ∈ db') as Hin'.
  { apply list_elem_of_lookup. exists i. rewrite Hdb', sql_update_lookup, Hi. simpl.
    by rewrite decide_True. }
  assert (¬ reports_inactive w2 u') as Hact.
  { intros (sid' & status & [= <-] & _ & Hr & Hst). by apply Hst, Hactive. }
  pose proof (verify_from_cache w2 db' u' Hok' Hin' Hact) as Hv.
  change (api_key u') with (api_key u) in Hv. rewrite Hv.
  change (plan u') with "pro".
  by rewrite (bool_decide_eq_false_2 ("pro" = "trial")).
Qed.

Lemma checkout_then_verify_witness :
  verify (sample_world "t" 1800000000 (StripeOk "cus_1") (StripeOk "active") ValueError)
         (Some "mk_bob")
         (webhook (sample_world "t" 1700000100 (StripeOk "cus_1") (StripeOk "active")
                     (Constructed (checkout_event {[ "api_key" := "mk_bob" ]}
                                                  (Some "sub_B"))))
                  "{}" (Some "t=1,v1=00") sample_db).2 =
    (Reply 200 {[ "valid" := JBool true; "plan" := JStr "pro";
                  "max_workers" := JInt 8; "email" := JStr "bob@example.com" ]},
     (webhook (sample_world "t" 1700000100 (StripeOk "cus_1") (StripeOk "active")
                 (Constructed (checkout_event {[ "api_key" := "mk_bob" ]}
                                              (Some "sub_B"))))
              "{}" (Some "t=1,v1=00") sample_db).2).
Proof.
  refine (checkout_then_verify
            (sample_world "t" 1700000100 (StripeOk "cus_1") (StripeOk "active")
               (Constructed (checkout_event {[ "api_key" := "mk_bob" ]} (Some "sub_B"))))
            (sample_world "t" 1800000000 (StripeOk "cus_1") (StripeOk "active") ValueError)
            "{}" (Some "t=1,v1=00") sample_db
            (checkout_event {[ "api_key" := "mk_bob" ]} (Some "sub_B"))
            1%nat bob "sub_B" _ eq_refl eq_refl eq_refl _ eq_refl _);
    [compute_done|by vm_compute|].
  intros status. simpl. congruence.
Defined.
